(** * media-renamer: filename parser and rename planner

    A shallow embedding of [media-renamer.py]: the filename parser
    ([parse_filename]), the canonical formatter ([get_filename_format]),
    the collision-avoiding planner ([get_unique_filepath]), the batch
    loop ([rename_files]) and the entry point ([main], [run_exiftool]).

    Modelling conventions.
    - A Python [str] is a [list ascii]; the character classes [\d] and [\w]
      are the ASCII ones ([0-9] and [A-Za-z0-9_]); every other byte is
      neither a digit nor a word character.
    - A Python [int] is a [Z].
    - A [pathlib.Path] is the list of its parts; [filename.name] is the last
      part.  [parse_filename] is given that last part.
    - An exception is a value of [exn]; code that may raise returns a
      [result]; code that also reads or changes the outside world lives in
      the monad [M]. *)

From Stdlib Require Import Ascii String ZArith NArith Lia Bool Arith List.
Import ListNotations.
Local Open Scope list_scope.

(** ** Strings *)

Definition str (s : string) : list ascii := list_ascii_of_string s.

Definition is_digit (a : ascii) : bool :=
  let n := N_of_ascii a in ((48 <=? n) && (n <=? 57))%N.

Definition is_word (a : ascii) : bool :=
  let n := N_of_ascii a in
  ((48 <=? n) && (n <=? 57) || (65 <=? n) && (n <=? 90)
   || (97 <=? n) && (n <=? 122) || (n =? 95))%N.

Fixpoint str_eqb (s t : list ascii) : bool :=
  match s, t with
  | [], [] => true
  | a :: s', b :: t' => Ascii.eqb a b && str_eqb s' t'
  | _, _ => false
  end.

(** [strip_prefix l s]: [s] with the leading [l] removed, when [s] starts
    with [l]. *)
Fixpoint strip_prefix (l s : list ascii) : option (list ascii) :=
  match l with
  | [] => Some s
  | a :: l' =>
      match s with
      | b :: s' => if Ascii.eqb a b then strip_prefix l' s' else None
      | [] => None
      end
  end.

Definition starts_with (l s : list ascii) : bool :=
  match strip_prefix l s with Some _ => true | None => false end.

(** [needle in haystack] for Python strings. *)
Fixpoint contains (needle hay : list ascii) : bool :=
  starts_with needle hay ||
  match hay with
  | [] => false
  | _ :: hay' => contains needle hay'
  end.

(** [s.rfind(".")]: index of the last dot, [None] for Python's [-1]. *)
Fixpoint rfind_dot (s : list ascii) : option nat :=
  match s with
  | [] => None
  | a :: s' =>
      match rfind_dot s' with
      | Some i => Some (S i)
      | None => if Ascii.eqb a "."%char then Some 0 else None
      end
  end.

Definition lower_char (a : ascii) : ascii :=
  let n := N_of_ascii a in
  if ((65 <=? n) && (n <=? 90))%N then ascii_of_N (n + 32) else a.

Definition lower (s : list ascii) : list ascii := map lower_char s.

(** ** Exceptions *)

Inductive exn : Type :=
| ValueError (msg : list ascii)
| IndexError (msg : list ascii)
| EOFError (msg : list ascii)
| Exception_ (msg : list ascii).

Definition exn_str (e : exn) : list ascii :=
  match e with
  | ValueError m | IndexError m | EOFError m | Exception_ m => m
  end.

Inductive result (A : Type) : Type :=
| Ok (a : A)
| Raise (e : exn).
Arguments Ok {A} a.
Arguments Raise {A} e.

Definition rbind {A B} (r : result A) (f : A -> result B) : result B :=
  match r with
  | Ok a => f a
  | Raise e => Raise e
  end.

Declare Scope result_scope.
Delimit Scope result_scope with result.
Notation "'let?' x ':=' r 'in' k" := (rbind r (fun x => k))
  (at level 10, x name, r at level 100, k at level 200) : result_scope.

(** ** Decimal numerals *)

Definition digit_char (n : N) : ascii := ascii_of_N (48 + n).
Definition digit_val (a : ascii) : N := (N_of_ascii a - 48)%N.

(** Decimal digits of [n], least significant first. *)
Fixpoint rdigits (fuel : nat) (n : N) : list N :=
  match fuel with
  | O => []
  | S f => (n mod 10)%N :: (if (n / 10 =? 0)%N then [] else rdigits f (n / 10)%N)
  end.

(** [str(n)] for a natural number. *)
Definition str_of_N (n : N) : list ascii :=
  map digit_char (rev (rdigits (S (N.to_nat n)) n)).

(** [format(z, "0<width>d")]: sign-aware zero padding to [width]. *)
Definition format_d (width : nat) (z : Z) : list ascii :=
  let ds := str_of_N (Z.abs_N z) in
  if (z <? 0)%Z
  then "-"%char :: repeat "0"%char (width - 1 - length ds) ++ ds
  else repeat "0"%char (width - length ds) ++ ds.

(** [str(z)]. *)
Definition str_of_Z (z : Z) : list ascii :=
  if (z <? 0)%Z then "-"%char :: str_of_N (Z.abs_N z) else str_of_N (Z.abs_N z).

Definition digits_value (s : list ascii) : N :=
  fold_left (fun acc a => (10 * acc + digit_val a)%N) s 0%N.

(** [int(s)].  The argument is always a [\d] group, a slice of one, or the
    two-character [\w] group of the video alternative; on those Python
    accepts exactly the non-empty all-digit strings. *)
Definition py_int (s : list ascii) : result Z :=
  match s with
  | [] => Raise (ValueError (str "invalid literal for int() with base 10: ''"))
  | _ =>
      if forallb is_digit s then Ok (Z.of_N (digits_value s))
      else Raise (ValueError
                    (str "invalid literal for int() with base 10: '" ++ s ++ str "'"))
  end.

(** ** The regular expression of [parse_filename] *)

Inductive cls : Type := Digit | Word.

Definition in_cls (c : cls) (a : ascii) : bool :=
  match c with Digit => is_digit a | Word => is_word a end.

Inductive quant : Type :=
| Exactly (n : nat)   (* {n} *)
| OneOrMore.          (* +   *)

(** The pattern only uses literal text and capture groups around one
    quantified class. *)
Inductive atom : Type :=
| Lit (s : string)
| Grp (c : cls) (q : quant).

(** Exactly [n] characters of class [c]. *)
Fixpoint take_cls (c : cls) (n : nat) (s : list ascii)
  : option (list ascii * list ascii) :=
  match n with
  | O => Some ([], s)
  | S n' =>
      match s with
      | a :: s' =>
          if in_cls c a then
            match take_cls c n' s' with
            | Some (w, r) => Some (a :: w, r)
            | None => None
            end
          else None
      | [] => None
      end
  end.

(** Greedy one-or-more with backtracking: consume a character, try to
    consume more, and fall back to stopping here when the rest of the
    pattern (the continuation [k]) fails after the longer run. *)
Fixpoint greedy {A} (c : cls) (k : list ascii -> list ascii -> option A)
  (acc s : list ascii) : option A :=
  match s with
  | a :: s' =>
      if in_cls c a then
        match greedy c k (acc ++ [a]) s' with
        | Some r => Some r
        | None => k (acc ++ [a]) s'
        end
      else None
  | [] => None
  end.

(** Match a sequence of atoms at the start of [s]; the result is the list
    of captured groups, in order. *)
Fixpoint run (atoms : list atom) (s : list ascii) : option (list (list ascii)) :=
  match atoms with
  | [] => Some []
  | Lit l :: rest =>
      match strip_prefix (str l) s with
      | Some s' => run rest s'
      | None => None
      end
  | Grp c (Exactly n) :: rest =>
      match take_cls c n s with
      | Some (w, s') => option_map (cons w) (run rest s')
      | None => None
      end
  | Grp c OneOrMore :: rest =>
      greedy c (fun w s' => option_map (cons w) (run rest s')) [] s
  end.

(** Ordered alternation: the first alternative that matches wins. *)
Fixpoint first_match (alts : list (list atom)) (s : list ascii)
  : option (list (list ascii)) :=
  match alts with
  | [] => None
  | alt :: rest =>
      match run alt s with
      | Some g => Some g
      | None => first_match rest s
      end
  end.

Definition d4 := Grp Digit (Exactly 4).
Definition d2 := Grp Digit (Exactly 2).
Definition d3 := Grp Digit (Exactly 3).
Definition w2 := Grp Word (Exactly 2).
Definition dplus := Grp Digit OneOrMore.
Definition wplus := Grp Word OneOrMore.

Definition alt1 := [d4; Lit "-"; d2; Lit "-"; d2; Lit " "; d2; Lit "."; d2; Lit "."; d2; Lit "."; wplus].
Definition alt2 := [Lit "IMG_"; d4; d2; d2; Lit "_"; d2; d2; d2; Lit "_"; dplus; Lit "."; wplus].
Definition alt3 := [Lit "PXL_"; d4; d2; d2; Lit "_"; d2; d2; d2; dplus; Lit "."; wplus].
Definition alt4 := [Lit "Screenshot from "; d4; Lit "-"; d2; Lit "-"; d2; Lit " "; d2; Lit "-"; d2; Lit "-"; d2; Lit "."; wplus].
Definition alt5 := [Lit "VID_"; d4; d2; d2; Lit "_"; w2; d4; Lit "."; wplus].
Definition alt6 := [Lit "PXL_"; d4; d2; d2; Lit "_"; d2; d2; d2; d3; Lit "."; wplus].
Definition alt7 := [Lit "IMG_"; d4; Lit "-"; d2; Lit "-"; d2; Lit "-"; d2; Lit "-"; d2; Lit "-"; d2; Lit "-"; d3; Lit "."; wplus].
Definition alt8 := [Lit "IMG_"; d4; Lit "-"; d2; Lit "-"; d2; Lit "-"; d2; Lit "-"; d2; Lit "-"; d2; Lit "-"; d3; Lit "-"; dplus; Lit "."; wplus].
Definition alt9 := [d4; Lit "-"; d2; Lit "-"; d2; Lit " "; d2; Lit "."; d2; Lit "."; d2; Lit "_"; dplus; Lit "."; wplus].

Definition pattern : list (list atom) :=
  [alt1; alt2; alt3; alt4; alt5; alt6; alt7; alt8; alt9].

(** [[g for g in re.match(pattern, name).groups() if g is not None]]:
    the groups of the alternatives that did not take part are [None], so
    what is left is the captures of the winning alternative.  [None] when
    the name does not match. *)
Definition re_match_groups (name : list ascii) : option (list (list ascii)) :=
  first_match pattern name.

(** ** pathlib *)

Definition Path := list (list ascii).

Definition path_name (p : Path) : list ascii := last p [].

(** [PurePath.suffix] and [PurePath.stem] of a final component. *)
Definition name_suffix (name : list ascii) : list ascii :=
  match rfind_dot name with
  | Some i => if (0 <? i) && (i <? length name - 1) then skipn i name else []
  | None => []
  end.

Definition name_stem (name : list ascii) : list ascii :=
  match rfind_dot name with
  | Some i => if (0 <? i) && (i <? length name - 1) then firstn i name else name
  | None => name
  end.

Definition suffix (p : Path) : list ascii := name_suffix (path_name p).
Definition stem (p : Path) : list ascii := name_stem (path_name p).

(** Split on ["/"]. *)
Fixpoint split_slash (cur s : list ascii) : list (list ascii) :=
  match s with
  | [] => [cur]
  | a :: s' =>
      if Ascii.eqb a "/"%char then cur :: split_slash [] s'
      else split_slash (cur ++ [a]) s'
  end.

Definition keep_part (part : list ascii) : bool :=
  negb (str_eqb part []) && negb (str_eqb part (str ".")).

Definition parse_parts (s : list ascii) : list (list ascii) :=
  filter keep_part (split_slash [] s).

(** [directory / s]: an absolute [s] replaces [directory]; empty and ["."]
    components are dropped. *)
Definition joinpath (directory : Path) (s : list ascii) : Path :=
  if starts_with (str "/") s then str "/" :: parse_parts s
  else directory ++ parse_parts s.

Definition valid_name (name : list ascii) : bool :=
  negb (str_eqb name []) && negb (contains (str "/") name)
  && negb (str_eqb name (str ".")).

(** [p.with_name(name)]. *)
Definition with_name (p : Path) (name : list ascii) : result Path :=
  if str_eqb (path_name p) [] then
    Raise (ValueError (str "path has an empty name"))
  else if valid_name name then Ok (removelast p ++ [name])
  else Raise (ValueError (str "Invalid name")).

Fixpoint join_slash (parts : list (list ascii)) : list ascii :=
  match parts with
  | [] => []
  | [x] => x
  | x :: rest => x ++ str "/" ++ join_slash rest
  end.

(** [str(p)]. *)
Definition path_str (p : Path) : list ascii :=
  match p with
  | [] => str "."
  | r :: rest => if str_eqb r (str "/") then str "/" ++ join_slash rest
                 else join_slash p
  end.

Fixpoint path_eqb (p q : Path) : bool :=
  match p, q with
  | [], [] => true
  | a :: p', b :: q' => str_eqb a b && path_eqb p' q'
  | _, _ => false
  end.

(** ** FileMetaData and parse_filename *)

Record FileMetaData : Type := mkFileMetaData {
  year : Z;
  month : Z;
  day : Z;
  hour : Z;
  minute : Z;
  second : Z;
  extension : list ascii
}.

Local Open Scope result_scope.

(** [groups[i]]. *)
Definition index (groups : list (list ascii)) (i : nat) : result (list ascii) :=
  match nth_error groups i with
  | Some g => Ok g
  | None => Raise (IndexError (str "list index out of range"))
  end.

(** [a, b, c = map(int, xs)]. *)
Definition unpack3_int (xs : list (list ascii)) : result (Z * Z * Z) :=
  match xs with
  | [a; b; c] =>
      let? a' := py_int a in
      let? b' := py_int b in
      let? c' := py_int c in
      Ok (a', b', c')
  | _ => Raise (ValueError (str "wrong number of values to unpack"))
  end.

(** [parse_filename], on [filename.name]. [Ok None] is the [return None]. *)
Definition parse_filename (name : list ascii) : result (option FileMetaData) :=
  match re_match_groups name with
  | None => Ok None
  | Some groups =>
      let? ymd := unpack3_int (firstn 3 groups) in
      let '(year, month, day) := ymd in
      let extension := skipn 1 (name_suffix name) in
      let? hms :=
        if contains (str "WA") name then
          let? g4 := index groups 4 in
          let? h := py_int g4 in
          Ok (h, 0%Z, 0%Z)
        else if (length groups =? 6) && contains (str "VID") name then
          let? g3 := index groups 3 in
          let? h := py_int g3 in
          let? g4 := index groups 4 in
          let? mi := py_int (firstn 2 g4) in
          let? g4' := index groups 4 in
          let? se := py_int (skipn 2 g4') in
          Ok (h, mi, se)
        else unpack3_int (firstn 3 (skipn 3 groups)) in
      let '(hour, minute, second) := hms in
      Ok (Some (mkFileMetaData year month day hour minute second extension))
  end.

(** ** The outside world: filesystem and console *)

Inductive entry_kind : Type := RegularFile | Directory.

(** The occupied paths, in the order the operating system lists them. *)
Definition filesystem := list (Path * entry_kind).

Record world : Type := mkWorld {
  fs : filesystem;
  stdin : list (list ascii);    (* the lines still to be read *)
  stdout : list (list ascii);   (* what was printed, oldest first *)
  stderr : list (list ascii)
}.

(** Computations that may raise and may read or change the world. *)
Definition M (A : Type) : Type := world -> result A * world.

Definition ret {A} (a : A) : M A := fun w => (Ok a, w).

Definition bind {A B} (c : M A) (f : A -> M B) : M B :=
  fun w =>
    match c w with
    | (Ok a, w') => f a w'
    | (Raise e, w') => (Raise e, w')
    end.

Definition raise {A} (e : exn) : M A := fun w => (Raise e, w).

Definition lift {A} (r : result A) : M A := fun w => (r, w).

Declare Scope M_scope.
Delimit Scope M_scope with M.
Notation "x <- c ;; k" := (bind c (fun x => k))
  (at level 61, c at next level, right associativity) : M_scope.
Notation "c ;; k" := (bind c (fun _ => k))
  (at level 61, right associativity) : M_scope.
Local Open Scope M_scope.

Definition occupied (f : filesystem) (p : Path) : bool :=
  existsb (fun e => path_eqb (fst e) p) f.

(** [p.exists()]. *)
Definition path_exists (p : Path) : M bool :=
  fun w => (Ok (occupied (fs w) p), w).

(** [p.is_file()]. *)
Definition is_file (p : Path) : M bool :=
  fun w =>
    (Ok match find (fun e => path_eqb (fst e) p) (fs w) with
        | Some (_, RegularFile) => true
        | _ => false
        end, w).

(** [directory.iterdir()]: the entries directly inside [directory], listed
    once, before the loop body runs. *)
Definition iterdir (directory : Path) : M (list Path) :=
  fun w =>
    (Ok (filter (fun p => negb (path_eqb p []) && path_eqb (removelast p) directory)
           (map fst (fs w))), w).

(** [src.rename(dst)].  The source was just seen by [is_file] and the
    destination was just probed free, so the failures of [os.rename] are
    not modelled. *)
Definition rename_path (src dst : Path) : M unit :=
  fun w =>
    let keep e := path_eqb (fst e) src || negb (path_eqb (fst e) dst) in
    let move (e : Path * entry_kind) :=
      if path_eqb (fst e) src then (dst, snd e) else e in
    (Ok tt, mkWorld (map move (filter keep (fs w))) (stdin w) (stdout w) (stderr w)).

(** [print(line)]. *)
Definition print (line : list ascii) : M unit :=
  fun w => (Ok tt, mkWorld (fs w) (stdin w) (stdout w ++ [line]) (stderr w)).

(** [print(line, file=sys.stderr)]. *)
Definition print_err (line : list ascii) (w : world) : world :=
  mkWorld (fs w) (stdin w) (stdout w) (stderr w ++ [line]).

(** [input(prompt)]. *)
Definition input (prompt : list ascii) : M (list ascii) :=
  fun w =>
    let w' := mkWorld (fs w) (stdin w) (stdout w ++ [prompt]) (stderr w) in
    match stdin w with
    | line :: rest => (Ok line, mkWorld (fs w) rest (stdout w ++ [prompt]) (stderr w))
    | [] => (Raise (EOFError (str "EOF when reading a line")), w')
    end.

(** ** The rename planner *)

Definition canonical_name (metadata : FileMetaData) : list ascii :=
  format_d 4 (year metadata) ++ str "-" ++ format_d 2 (month metadata) ++ str "-"
  ++ format_d 2 (day metadata) ++ str "_" ++ format_d 2 (hour metadata) ++ str "-"
  ++ format_d 2 (minute metadata) ++ str "-" ++ format_d 2 (second metadata)
  ++ str "." ++ extension metadata.

Definition get_filename_format (directory : Path) (metadata : FileMetaData) : Path :=
  joinpath directory (canonical_name metadata).

(** [range(lo, hi)]. *)
Definition py_range (lo hi : nat) : list Z := map Z.of_nat (seq lo (hi - lo)).

(** The name probed at step [i]. *)
Definition suffixed_name (base_filepath : Path) (i : Z) : list ascii :=
  stem base_filepath ++ str "_" ++ str_of_Z i ++ suffix base_filepath.

(** The [for] loop of [get_unique_filepath] over the values still to try. *)
Fixpoint probe (base_filepath : Path) (todo : list Z) : M Path :=
  match todo with
  | [] => raise (Exception_ (str "Could not find a unique filename"))
  | i :: todo' =>
      new_filepath <- lift (with_name base_filepath (suffixed_name base_filepath i));;
      taken <- path_exists new_filepath;;
      if negb taken then ret new_filepath else probe base_filepath todo'
  end.

Definition get_unique_filepath (directory : Path) (metadata : FileMetaData) : M Path :=
  let base_filepath := get_filename_format directory metadata in
  probe base_filepath (py_range 1 100).

(** ** The batch loop *)

Record Args : Type := mkArgs {
  verbose : bool;
  rename : bool;
  yes : bool
}.

Definition when (b : bool) (c : M unit) : M unit := if b then c else ret tt.

(** [args.rename and (args.yes or input(...).lower() == "y")]. *)
Definition confirmed (args : Args) (filepath new_filepath : Path) : M bool :=
  if rename args then
    if yes args then ret true
    else
      answer <- input (str "Rename? " ++ path_str filepath ++ str " -> "
                       ++ path_str new_filepath ++ str " (y/n): ");;
      ret (str_eqb (lower answer) (str "y"))
  else ret false.

(** One iteration of the loop body. *)
Definition process_entry (directory : Path) (args : Args) (filepath : Path) : M unit :=
  regular <- is_file filepath;;
  if negb regular then ret tt
  else
    metadata <- lift (parse_filename (path_name filepath));;
    match metadata with
    | None => ret tt
    | Some metadata =>
        new_filepath <- get_unique_filepath directory metadata;;
        when (verbose args)
          (print (str "renaming: " ++ path_str filepath ++ str " to "
                  ++ path_str new_filepath ++ str "."));;
        go <- confirmed args filepath new_filepath;;
        if go then
          rename_path filepath new_filepath;;
          when (verbose args)
            (print (str "Renamed: " ++ path_str filepath ++ str " -> "
                    ++ path_str new_filepath))
        else ret tt
    end.

(** [for x in xs: body(x)]: an exception leaves the loop. *)
Fixpoint for_each {A} (body : A -> M unit) (xs : list A) : M unit :=
  match xs with
  | [] => ret tt
  | x :: xs' => body x;; for_each body xs'
  end.

(** [rename_files]: the whole loop sits inside one [try]; the handler
    prints the exception and returns 1. *)
Definition rename_files (directory : Path) (args : Args) (w : world) : Z * world :=
  match (entries <- iterdir directory;;
         for_each (process_entry directory args) entries) w with
  | (Ok _, w') => (0%Z, w')
  | (Raise e, w') => (1%Z, print_err (exn_str e) w')
  end.

(** ** What it means to match, stated without the matcher *)

(** [w] is a run of class [c] of the length [q] asks for. *)
Definition cls_word (c : cls) (q : quant) (w : list ascii) : Prop :=
  forallb (in_cls c) w = true
  /\ match q with
     | Exactly n => length w = n
     | OneOrMore => (1 <= length w)%nat
     end.

(** [seq_matches atoms s caps]: a prefix of [s] is the atoms one after the
    other, and [caps] are the texts of the groups. *)
Inductive seq_matches : list atom -> list ascii -> list (list ascii) -> Prop :=
| SM_nil (s : list ascii) : seq_matches [] s []
| SM_lit (l : string) (atoms : list atom) (s : list ascii) (caps : list (list ascii)) :
    seq_matches atoms s caps ->
    seq_matches (Lit l :: atoms) (str l ++ s) caps
| SM_grp (c : cls) (q : quant) (atoms : list atom) (w s : list ascii)
    (caps : list (list ascii)) :
    cls_word c q w ->
    seq_matches atoms s caps ->
    seq_matches (Grp c q :: atoms) (w ++ s) (w :: caps).

(** The groups of an alternative, in order. *)
Fixpoint groups_of (atoms : list atom) : list (cls * quant) :=
  match atoms with
  | [] => []
  | Lit _ :: rest => groups_of rest
  | Grp c q :: rest => (c, q) :: groups_of rest
  end.

(** The substring after the final ["."], when there is a ["."]. *)
Fixpoint after_last_dot (s : list ascii) : option (list ascii) :=
  match s with
  | [] => None
  | a :: s' =>
      match after_last_dot s' with
      | Some e => Some e
      | None => if Ascii.eqb a "."%char then Some s' else None
      end
  end.

(** The number a string of decimal digits denotes. *)
Definition int_of (w : list ascii) : Z := Z.of_N (digits_value w).

(** The alternative cannot start with the character [x]. *)
Definition lead_not (x : ascii) (atoms : list atom) : bool :=
  match atoms with
  | Lit l :: _ =>
      match str l with
      | c :: _ => negb (Ascii.eqb c x)
      | [] => false
      end
  | Grp c (Exactly (S _)) :: _ => negb (in_cls c x)
  | Grp c OneOrMore :: _ => negb (in_cls c x)
  | _ => false
  end.

Definition is_dot_lit (a : atom) : bool :=
  match a with
  | Lit l => str_eqb (str l) (str ".")
  | Grp _ _ => false
  end.

(** ** Names used in the statements *)

(** The suffixed variant [_i] of a base path: what [with_name] builds at
    step [i] of the planner's loop. *)
Definition variant (base_filepath : Path) (i : Z) : Path :=
  removelast base_filepath ++ [suffixed_name base_filepath i].

Definition no_slash (s : list ascii) : bool :=
  forallb (fun a => negb (Ascii.eqb a "/"%char)) s.

Definition no_dot (s : list ascii) : bool :=
  forallb (fun a => negb (Ascii.eqb a "."%char)) s.

(** The NormalizedTimestamp domain of the data model: the six numeric
    ranges, and an extension that is a file extension (no path separator
    in it). *)
Definition in_domain (m : FileMetaData) : bool :=
  ((1 <=? year m) && (year m <=? 9999) && (1 <=? month m) && (month m <=? 12)
   && (1 <=? day m) && (day m <=? 31) && (0 <=? hour m) && (hour m <=? 23)
   && (0 <=? minute m) && (minute m <=? 59) && (0 <=? second m) && (second m <=? 59))%Z
  && no_slash (extension m).

(** [s] is [z] written with exactly [w] decimal digits. *)
Definition padded (w : nat) (z : Z) (s : list ascii) : Prop :=
  length s = w /\ forallb is_digit s = true /\ py_int s = Ok z.

(** The part of the canonical name before the dot of the extension. *)
Definition timestamp_text (metadata : FileMetaData) : list ascii :=
  format_d 4 (year metadata) ++ str "-" ++ format_d 2 (month metadata) ++ str "-"
  ++ format_d 2 (day metadata) ++ str "_" ++ format_d 2 (hour metadata) ++ str "-"
  ++ format_d 2 (minute metadata) ++ str "-" ++ format_d 2 (second metadata).

(** ** Inputs of the end-to-end scenarios *)

Definition scenario_record : FileMetaData :=
  mkFileMetaData 2021 1 1 1 1 1 (str "jpg").

(** Scenario E: the canonical name and its variants [_1] .. [_k], all
    present in the directory [photos]. *)
Definition photos : Path := [str "photos"].

Definition crowded (k : nat) : filesystem :=
  (get_filename_format photos scenario_record, RegularFile)
  :: map (fun i => (variant (get_filename_format photos scenario_record) (Z.of_nat i),
                    RegularFile))
       (seq 1 k).

Definition quiet (f : filesystem) : world := mkWorld f [] [] [].

(** A directory listed in this order: a file that will be renamed, a file
    whose canonical name and all 99 variants are taken, those 100 names,
    and a screenshot. *)
Definition early_file : Path := photos ++ [str "IMG_20200101_000000_1.png"].
Definition stuck_file : Path := photos ++ [str "2021-01-01 01.01.01.jpg"].
Definition late_file : Path := photos ++ [str "Screenshot from 2022-02-02 02-02-02.png"].
Definition late_target : Path := photos ++ [str "2022-02-02_02-02-02_1.png"].

Definition busy : filesystem :=
  (early_file, RegularFile) :: (stuck_file, RegularFile)
  :: crowded 99 ++ [(late_file, RegularFile)].

Definition rename_all : Args := mkArgs false true true.

(** ** The seven layouts that carry a time of day *)

(** The record read off the six fields of a name. *)
Definition timed_record (y mo d h mi se name : list ascii) : FileMetaData :=
  mkFileMetaData (int_of y) (int_of mo) (int_of d) (int_of h) (int_of mi) (int_of se)
    (skipn 1 (name_suffix name)).

(** [n] stands for a run of one or more digits, [n3] for three digits. *)
Definition dropbox_name (y mo d h mi se ext rest : list ascii) : list ascii :=
  y ++ str "-" ++ mo ++ str "-" ++ d ++ str " " ++ h ++ str "." ++ mi ++ str "." ++ se
  ++ str "." ++ ext ++ rest.

Definition img_name (y mo d h mi se n ext rest : list ascii) : list ascii :=
  str "IMG_" ++ y ++ mo ++ d ++ str "_" ++ h ++ mi ++ se ++ str "_" ++ n
  ++ str "." ++ ext ++ rest.

Definition pxl_name (y mo d h mi se n ext rest : list ascii) : list ascii :=
  str "PXL_" ++ y ++ mo ++ d ++ str "_" ++ h ++ mi ++ se ++ n ++ str "." ++ ext ++ rest.

Definition screenshot_name (y mo d h mi se ext rest : list ascii) : list ascii :=
  str "Screenshot from " ++ y ++ str "-" ++ mo ++ str "-" ++ d ++ str " " ++ h
  ++ str "-" ++ mi ++ str "-" ++ se ++ str "." ++ ext ++ rest.

Definition img_dash_name (y mo d h mi se n3 ext rest : list ascii) : list ascii :=
  str "IMG_" ++ y ++ str "-" ++ mo ++ str "-" ++ d ++ str "-" ++ h ++ str "-" ++ mi
  ++ str "-" ++ se ++ str "-" ++ n3 ++ str "." ++ ext ++ rest.

Definition img_dash_extra_name (y mo d h mi se n3 n ext rest : list ascii) : list ascii :=
  str "IMG_" ++ y ++ str "-" ++ mo ++ str "-" ++ d ++ str "-" ++ h ++ str "-" ++ mi
  ++ str "-" ++ se ++ str "-" ++ n3 ++ str "-" ++ n ++ str "." ++ ext ++ rest.

Definition dropbox_numbered_name (y mo d h mi se n ext rest : list ascii) : list ascii :=
  y ++ str "-" ++ mo ++ str "-" ++ d ++ str " " ++ h ++ str "." ++ mi ++ str "." ++ se
  ++ str "_" ++ n ++ str "." ++ ext ++ rest.

(** ** The end of the loop body *)

(** What [process_entry] does once the planner has answered. *)
Definition after_plan (args : Args) (filepath new_filepath : Path) : M unit :=
  (when (verbose args)
     (print (str "renaming: " ++ path_str filepath ++ str " to "
             ++ path_str new_filepath ++ str "."));;
   go <- confirmed args filepath new_filepath;;
   if go then
     rename_path filepath new_filepath;;
     when (verbose args)
       (print (str "Renamed: " ++ path_str filepath ++ str " -> "
               ++ path_str new_filepath))
   else ret tt)%M.

(** The answer is not a yes. *)
Definition declines (line : list ascii) : bool :=
  negb (str_eqb (lower line) (str "y")).

(** ** The exceptions that can end a run *)


(** ** The command line entry point *)

(** [p.is_dir()]. *)
Definition is_dir (p : Path) : M bool :=
  fun w =>
    (Ok match find (fun e => path_eqb (fst e) p) (fs w) with
        | Some (_, Directory) => true
        | _ => false
        end, w).

(** [Path(s)] for a string. *)
Definition path_of_string (s : list ascii) : Path := joinpath [] s.

(** [run_exiftool].  The two library calls that reach outside the program
    are arguments: [which name w] is [shutil.which(name)] ([None], or the
    path found, which is never empty), and [call argv w] is
    [subprocess.call(argv)], the exit status of the tool and the world it
    leaves. *)
Definition run_exiftool
  (which : list ascii -> world -> option (list ascii))
  (call : list (list ascii) -> world -> Z * world)
  (directory : Path) (w : world) : Z * world :=
  match which (str "exiftool") w with
  | None => (1%Z, print_err (str "exiftool not found.") w)
  | Some exiftool_path =>
      let (rc, w') :=
        call [exiftool_path; str "-filename<DateTimeOriginal"; str "-d";
              str "%Y-%m-%d_%H-%M-%S.%%e"; str "-r"; path_name directory; str "."] w in
      if (rc =? 0)%Z then (0%Z, w')
      else (1%Z, print_err (str "exiftool failed.") w')
  end.

(** [main], after [parse_args]: [directory_arg] is [args.directory],
    [exiftool] is [args.exiftool], and [args] carries the other three
    flags.  The status of [run_exiftool] is dropped, as in the source. *)
Definition main
  (which : list ascii -> world -> option (list ascii))
  (call : list (list ascii) -> world -> Z * world)
  (directory_arg : list ascii) (exiftool : bool) (args : Args) (w : world)
  : Z * world :=
  let w1 :=
    if exiftool then snd (run_exiftool which call (path_of_string directory_arg) w)
    else w in
  let directory := path_of_string directory_arg in
  match is_dir directory w1 with
  | (Ok true, w2) => rename_files directory args w2
  | (_, w2) =>
      (1%Z, print_err (path_str directory ++ str " is not a directory.") w2)
  end.

(** * Properties *)

(** ** The planner only reads the world *)

Lemma probe_keeps_world (base : Path) (todo : list Z) (w : world) :
  snd (probe base todo w) = w.
Proof.
  induction todo as [|i todo IH]; simpl; [reflexivity|].
  unfold bind, lift, path_exists.
  destruct (with_name base (suffixed_name base i)) as [p|e]; simpl; [|reflexivity].
  destruct (occupied (fs w) p); simpl; [exact IH | reflexivity].
Qed.

Lemma get_unique_filepath_keeps_world (directory : Path) (metadata : FileMetaData)
  (w : world) :
  snd (get_unique_filepath directory metadata w) = w.
Proof. apply probe_keeps_world. Qed.

(** C9: planning twice in a row, with nothing done to the directory in
    between, gives the same outcome (the same path, or the same exception)
    both times; the first call leaves the world as it found it. *)
Theorem plan_twice_same (directory : Path) (metadata : FileMetaData) (w : world) :
  let (r1, w1) := get_unique_filepath directory metadata w in
  let (r2, w2) := get_unique_filepath directory metadata w1 in
  w1 = w /\ r2 = r1 /\ w2 = w.
Proof.
  pose proof (get_unique_filepath_keeps_world directory metadata w) as Hw.
  destruct (get_unique_filepath directory metadata w) as [r1 w1] eqn:E1.
  simpl in Hw. subst w1. rewrite E1. auto.
Qed.

(** ** Evaluating the parser *)

Example parse_scenario_A :
  parse_filename (str "2021-01-01 01.01.01.jpg") = Ok (Some scenario_record).
Proof. reflexivity. Qed.

Example parse_scenario_B :
  parse_filename (str "IMG_20210101_010101_123.jpg") = Ok (Some scenario_record).
Proof. reflexivity. Qed.

Example parse_scenario_C :
  parse_filename (str "VID_20210101_WA0000.mp4")
  = Ok (Some (mkFileMetaData 2021 1 1 0 0 0 (str "mp4"))).
Proof. reflexivity. Qed.

Example parse_scenario_D :
  parse_filename (str "Screenshot from 2021-01-01 01-01-01.png")
  = Ok (Some (mkFileMetaData 2021 1 1 1 1 1 (str "png"))).
Proof. reflexivity. Qed.

Example parse_no_match :
  parse_filename (str "random.txt") = Ok None
  /\ parse_filename (str "DSC_0001.jpg") = Ok None.
Proof. split; reflexivity. Qed.

(** C3: on [VID_20210101_AB1234.mp4] the video alternative matches, the
    name has no ["WA"], and [int] is applied to the tag ["AB"]: the parser
    raises [ValueError] instead of returning a record or [None]. *)
Theorem parse_raises_on_alphabetic_tag :
  parse_filename (str "VID_20210101_AB1234.mp4")
  = Raise (ValueError (str "invalid literal for int() with base 10: 'AB'")).
Proof. reflexivity. Qed.

(** C4: on [PXL_20210101_010203123.WAV] the third alternative captures
    hour 01, minute 02, second 03, but the ["WA"] of the extension sends
    the parser down the video branch: the record has hour 2, minute 0 and
    second 0. *)
Theorem parse_wav_extension_loses_time :
  re_match_groups (str "PXL_20210101_010203123.WAV")
  = Some [str "2021"; str "01"; str "01"; str "01"; str "02"; str "03";
          str "123"; str "WAV"]
  /\ parse_filename (str "PXL_20210101_010203123.WAV")
     = Ok (Some (mkFileMetaData 2021 1 1 2 0 0 (str "WAV")))
  /\ parse_filename (str "PXL_20210101_010203123.jpg")
     = Ok (Some (mkFileMetaData 2021 1 1 1 2 3 (str "jpg"))).
Proof. repeat split; reflexivity. Qed.

(** ** Evaluating the planner *)

Lemma path_name_snoc (p : Path) (x : list ascii) : path_name (p ++ [x]) = x.
Proof. unfold path_name. apply last_last. Qed.

(** C1: with nothing in the filesystem the canonical path
    [2021-01-01_01-01-01.jpg] is free, yet the planner never probes it: the
    loop starts at 1 and the answer is [2021-01-01_01-01-01_1.jpg]. *)
Theorem plan_in_empty_directory_is_suffixed (directory : Path)
  (i o e : list (list ascii)) :
  get_filename_format directory scenario_record
  = directory ++ [str "2021-01-01_01-01-01.jpg"]
  /\ occupied [] (get_filename_format directory scenario_record) = false
  /\ get_unique_filepath directory scenario_record (mkWorld [] i o e)
     = (Ok (directory ++ [str "2021-01-01_01-01-01_1.jpg"]), mkWorld [] i o e).
Proof.
  assert (Hb : get_filename_format directory scenario_record
               = directory ++ [str "2021-01-01_01-01-01.jpg"]) by reflexivity.
  split; [exact Hb|]. split; [reflexivity|].
  unfold get_unique_filepath. rewrite Hb.
  change (py_range 1 100) with (1%Z :: py_range 2 100).
  cbn [probe]. unfold bind, lift, with_name, suffixed_name, stem, suffix.
  rewrite path_name_snoc, removelast_last.
  reflexivity.
Qed.

(** ** Decimal numerals *)

Section Numerals.
Local Open Scope N_scope.

Lemma is_digit_digit_char (d : N) : d < 10 -> is_digit (digit_char d) = true.
Proof.
  intros H.
  assert (d = 0 \/ d = 1 \/ d = 2 \/ d = 3 \/ d = 4 \/ d = 5 \/ d = 6
          \/ d = 7 \/ d = 8 \/ d = 9) as Hd by lia.
  repeat (destruct Hd as [-> | Hd]; [reflexivity|]). subst d. reflexivity.
Qed.

Lemma digit_val_digit_char (d : N) : d < 10 -> digit_val (digit_char d) = d.
Proof.
  intros H.
  assert (d = 0 \/ d = 1 \/ d = 2 \/ d = 3 \/ d = 4 \/ d = 5 \/ d = 6
          \/ d = 7 \/ d = 8 \/ d = 9) as Hd by lia.
  repeat (destruct Hd as [-> | Hd]; [reflexivity|]). subst d. reflexivity.
Qed.

Lemma rdigits_small (fuel : nat) (n : N) : Forall (fun d => d < 10) (rdigits fuel n).
Proof.
  revert n. induction fuel as [|f IH]; intros n; simpl; [constructor|].
  constructor.
  - apply N.mod_lt. discriminate.
  - destruct (n / 10 =? 0); [constructor | apply IH].
Qed.

(** Value of a list of digits, least significant first. *)
Lemma rdigits_value (fuel : nat) (n : N) :
  (N.to_nat n < fuel)%nat ->
  fold_right (fun d acc => 10 * acc + d) 0 (rdigits fuel n) = n.
Proof.
  revert n. induction fuel as [|f IH]; intros n Hf; [lia|].
  cbn [rdigits fold_right].
  pose proof (N.div_mod n 10 ltac:(discriminate)) as Hdm.
  destruct (N.eqb_spec (n / 10) 0) as [Hz|Hz].
  - cbn [fold_right]. lia.
  - rewrite IH; [lia|].
    assert (0 < n) by (destruct n; [now elim Hz | lia]).
    assert (n / 10 < n) by (apply N.div_lt; lia). lia.
Qed.

Lemma rdigits_length (w fuel : nat) (n : N) :
  n < 10 ^ N.of_nat (S w) -> (length (rdigits fuel n) <= S w)%nat.
Proof.
  revert fuel n. induction w as [|w IH]; intros fuel n Hn.
  - destruct fuel as [|f]; simpl; [lia|].
    change (10 ^ N.of_nat 1) with 10 in Hn.
    rewrite (N.div_small n 10 Hn). simpl. lia.
  - destruct fuel as [|f]; simpl; [lia|].
    destruct (n / 10 =? 0); simpl; [lia|].
    apply le_n_S. apply IH.
    apply N.Div0.div_lt_upper_bound.
    replace (N.of_nat (S (S w))) with (N.succ (N.of_nat (S w))) in Hn by lia.
    rewrite N.pow_succ_r' in Hn. exact Hn.
Qed.

Lemma rdigits_nonempty (fuel : nat) (n : N) : rdigits (S fuel) n <> [].
Proof. simpl. discriminate. Qed.

Lemma str_of_N_digits (n : N) : forallb is_digit (str_of_N n) = true.
Proof.
  unfold str_of_N. apply forallb_forall. intros a Ha.
  apply in_map_iff in Ha. destruct Ha as [d [<- Hd]].
  apply is_digit_digit_char.
  apply in_rev in Hd.
  pose proof (rdigits_small (S (N.to_nat n)) n) as Hs.
  rewrite Forall_forall in Hs. apply Hs, Hd.
Qed.

Lemma str_of_N_nonempty (n : N) : str_of_N n <> [].
Proof.
  unfold str_of_N. simpl. intros H.
  apply map_eq_nil in H. apply app_eq_nil in H. destruct H as [_ H]. discriminate.
Qed.

Lemma str_of_N_length (w : nat) (n : N) :
  n < 10 ^ N.of_nat (S w) -> (length (str_of_N n) <= S w)%nat.
Proof.
  intros H. unfold str_of_N. rewrite length_map, length_rev.
  apply rdigits_length, H.
Qed.

Lemma digits_value_digit_chars (ds : list N) (acc : N) :
  Forall (fun d => d < 10) ds ->
  fold_left (fun acc a => 10 * acc + digit_val a) (map digit_char ds) acc
  = fold_left (fun acc d => 10 * acc + d) ds acc.
Proof.
  intros H. revert acc. induction H as [|d ds Hd _ IH]; intros acc; simpl.
  - reflexivity.
  - rewrite digit_val_digit_char by exact Hd. apply IH.
Qed.

Lemma digits_value_str_of_N (n : N) : digits_value (str_of_N n) = n.
Proof.
  unfold digits_value, str_of_N.
  rewrite digits_value_digit_chars.
  2:{ apply Forall_rev, rdigits_small. }
  rewrite <- fold_left_rev_right. rewrite rev_involutive.
  apply rdigits_value. lia.
Qed.

Lemma digits_value_zeros (k : nat) (s : list ascii) :
  digits_value (repeat "0"%char k ++ s) = digits_value s.
Proof.
  unfold digits_value. rewrite fold_left_app. f_equal.
  induction k as [|k IH]; simpl; [reflexivity | exact IH].
Qed.
End Numerals.

Lemma forallb_repeat {A} (f : A -> bool) (a : A) (k : nat) :
  f a = true -> forallb f (repeat a k) = true.
Proof. intros H. induction k; simpl; [reflexivity | now rewrite H]. Qed.

Lemma format_d_nonneg (width : nat) (z : Z) :
  (0 <= z)%Z ->
  format_d width z
  = repeat "0"%char (width - length (str_of_N (Z.to_N z))) ++ str_of_N (Z.to_N z).
Proof.
  intros H. unfold format_d.
  destruct (Z.ltb_spec z 0) as [Hlt|_]; [lia|].
  replace (Z.abs_N z) with (Z.to_N z) by lia. reflexivity.
Qed.

Lemma format_d_digits (width : nat) (z : Z) :
  (0 <= z)%Z -> forallb is_digit (format_d width z) = true.
Proof.
  intros H. rewrite format_d_nonneg by exact H.
  rewrite forallb_app, str_of_N_digits, forallb_repeat; reflexivity.
Qed.

Lemma format_d_nonempty (width : nat) (z : Z) : format_d width z <> [].
Proof.
  unfold format_d. destruct (z <? 0)%Z; [discriminate|].
  intros H. apply app_eq_nil in H. destruct H as [_ H].
  exact (str_of_N_nonempty _ H).
Qed.

(** [int] undoes the zero-padded formatting of a natural number. *)
Lemma py_int_format_d (width : nat) (z : Z) :
  (0 <= z)%Z -> py_int (format_d width z) = Ok z.
Proof.
  intros H. unfold py_int.
  pose proof (format_d_nonempty width z) as Hne.
  destruct (format_d width z) as [|a s] eqn:E; [congruence|].
  rewrite <- E. rewrite format_d_digits by exact H.
  rewrite format_d_nonneg by exact H.
  rewrite digits_value_zeros, digits_value_str_of_N. f_equal. lia.
Qed.

Lemma format_d_length (w : nat) (z : Z) :
  (0 <= z < 10 ^ Z.of_nat (S w))%Z -> length (format_d (S w) z) = S w.
Proof.
  intros H. rewrite format_d_nonneg by lia.
  rewrite length_app, repeat_length.
  assert (length (str_of_N (Z.to_N z)) <= S w)%nat; [|lia].
  apply str_of_N_length.
  assert (Z.of_N (Z.to_N z) < Z.of_N (10 ^ N.of_nat (S w)))%Z; [|lia].
  rewrite N2Z.inj_pow, nat_N_Z. simpl Z.of_N at 2. rewrite Z2N.id by lia. lia.
Qed.

(** ** Strings and paths *)

Lemma str_eqb_eq (s t : list ascii) : str_eqb s t = true <-> s = t.
Proof.
  revert t. induction s as [|a s IH]; intros [|b t]; simpl; split; intros H;
    try reflexivity; try discriminate.
  - apply andb_true_iff in H. destruct H as [Hab Hst].
    apply Ascii.eqb_eq in Hab. apply IH in Hst. congruence.
  - injection H as -> ->. rewrite Ascii.eqb_refl. simpl. now apply IH.
Qed.

Lemma str_eqb_refl (s : list ascii) : str_eqb s s = true.
Proof. now apply str_eqb_eq. Qed.

Lemma path_eqb_eq (p q : Path) : path_eqb p q = true <-> p = q.
Proof.
  revert q. induction p as [|a p IH]; intros [|b q]; simpl; split; intros H;
    try reflexivity; try discriminate.
  - apply andb_true_iff in H. destruct H as [Hab Hpq].
    apply str_eqb_eq in Hab. apply IH in Hpq. congruence.
  - injection H as -> ->. rewrite str_eqb_refl. simpl. now apply IH.
Qed.

Lemma contains_slash (s : list ascii) : contains (str "/") s = negb (no_slash s).
Proof.
  induction s as [|a s IH]; [reflexivity|].
  cbn [contains]. rewrite IH. unfold no_slash. simpl forallb.
  unfold starts_with. cbn [strip_prefix str list_ascii_of_string].
  rewrite (Ascii.eqb_sym "/"%char a).
  destruct (Ascii.eqb a "/"%char); reflexivity.
Qed.

Lemma no_slash_app (s t : list ascii) : no_slash (s ++ t) = no_slash s && no_slash t.
Proof. apply forallb_app. Qed.

Lemma no_slash_firstn (n : nat) (s : list ascii) :
  no_slash s = true -> no_slash (firstn n s) = true.
Proof.
  intros H. rewrite <- (firstn_skipn n s) in H.
  rewrite no_slash_app in H. now apply andb_true_iff in H.
Qed.

Lemma no_slash_skipn (n : nat) (s : list ascii) :
  no_slash s = true -> no_slash (skipn n s) = true.
Proof.
  intros H. rewrite <- (firstn_skipn n s) in H.
  rewrite no_slash_app in H. now apply andb_true_iff in H.
Qed.

Lemma no_slash_digits (s : list ascii) : forallb is_digit s = true -> no_slash s = true.
Proof.
  unfold no_slash. induction s as [|a s IH]; simpl; [reflexivity|].
  intros H. apply andb_true_iff in H. destruct H as [Ha Hs].
  rewrite IH by exact Hs. rewrite andb_true_r.
  destruct (Ascii.eqb_spec a "/"%char) as [->|]; [discriminate | reflexivity].
Qed.

Lemma split_slash_parts (s cur : list ascii) :
  no_slash cur = true -> Forall (fun part => no_slash part = true) (split_slash cur s).
Proof.
  revert cur. induction s as [|a s IH]; intros cur Hc; simpl.
  - constructor; [exact Hc | constructor].
  - destruct (Ascii.eqb a "/"%char) eqn:E.
    + constructor; [exact Hc | now apply IH].
    + apply IH. rewrite no_slash_app, Hc. unfold no_slash. simpl. now rewrite E.
Qed.

Lemma split_slash_head (s cur : list ascii) :
  exists x rest, split_slash cur s = (cur ++ x) :: rest.
Proof.
  revert cur. induction s as [|a s IH]; intros cur; simpl.
  - exists [], []. now rewrite app_nil_r.
  - destruct (Ascii.eqb a "/"%char).
    + exists [], (split_slash [] s). now rewrite app_nil_r.
    + destruct (IH (cur ++ [a])) as [x [rest ->]].
      exists (a :: x), rest. now rewrite <- app_assoc.
Qed.

Lemma split_slash_whole (s cur : list ascii) :
  no_slash s = true -> split_slash cur s = [cur ++ s].
Proof.
  revert cur. induction s as [|a s IH]; intros cur H; simpl.
  - now rewrite app_nil_r.
  - unfold no_slash in H. simpl in H. apply andb_true_iff in H.
    destruct H as [Ha Hs]. apply negb_true_iff in Ha. rewrite Ha.
    rewrite IH by exact Hs. now rewrite <- app_assoc.
Qed.

Lemma parse_parts_ok (s : list ascii) :
  Forall (fun part => part <> [] /\ no_slash part = true) (parse_parts s).
Proof.
  unfold parse_parts. apply Forall_forall. intros part Hin.
  apply filter_In in Hin. destruct Hin as [Hin Hk]. split.
  - intros ->. discriminate.
  - pose proof (split_slash_parts s [] eq_refl) as Hf.
    rewrite Forall_forall in Hf. now apply Hf.
Qed.

(** A string that starts with neither ["/"] nor ["."] has a first part. *)
Lemma parse_parts_nonempty (c : ascii) (s : list ascii) :
  c <> "/"%char -> c <> "."%char -> parse_parts (c :: s) <> [].
Proof.
  intros Hs Hd. unfold parse_parts. simpl.
  destruct (Ascii.eqb_spec c "/"%char) as [|_]; [contradiction|].
  destruct (split_slash_head s [c]) as [x [rest ->]]. simpl.
  unfold keep_part at 1. simpl.
  destruct (Ascii.eqb_spec c "."%char) as [|_]; [contradiction|].
  simpl. discriminate.
Qed.

Lemma format_d_head (width : nat) (z : Z) :
  exists c r, format_d width z = c :: r /\ c <> "/"%char /\ c <> "."%char.
Proof.
  unfold format_d. destruct (z <? 0)%Z.
  - eexists _, _. split; [reflexivity|]. split; discriminate.
  - pose proof (str_of_N_digits (Z.abs_N z)) as Hd.
    pose proof (str_of_N_nonempty (Z.abs_N z)) as Hne.
    destruct (width - length (str_of_N (Z.abs_N z)))%nat as [|k]; simpl.
    + destruct (str_of_N (Z.abs_N z)) as [|c r]; [congruence|].
      exists c, r. split; [reflexivity|].
      simpl in Hd. apply andb_true_iff in Hd. destruct Hd as [Hc _].
      split; intros ->; discriminate.
    + eexists _, _. split; [reflexivity|]. split; discriminate.
Qed.

Lemma canonical_name_head (metadata : FileMetaData) :
  exists c r, canonical_name metadata = c :: r /\ c <> "/"%char /\ c <> "."%char.
Proof.
  unfold canonical_name.
  destruct (format_d_head 4 (year metadata)) as [c [r [-> H]]].
  eexists _, _. split; [reflexivity | exact H].
Qed.

(** The canonical path always has a final component, which is not empty
    and has no separator in it. *)
Lemma get_filename_format_name (directory : Path) (metadata : FileMetaData) :
  path_name (get_filename_format directory metadata) <> []
  /\ no_slash (path_name (get_filename_format directory metadata)) = true.
Proof.
  unfold get_filename_format, joinpath.
  destruct (canonical_name_head metadata) as [c [r [-> [Hs Hd]]]].
  unfold starts_with. cbn [strip_prefix str list_ascii_of_string].
  destruct (Ascii.eqb_spec "/"%char c) as [E|_]; [congruence|].
  pose proof (parse_parts_nonempty c r Hs Hd) as Hne.
  pose proof (parse_parts_ok (c :: r)) as Hok.
  destruct (exists_last Hne) as [front [nm E]].
  rewrite E in *. rewrite app_assoc, path_name_snoc.
  rewrite Forall_forall in Hok. apply Hok. apply in_or_app. right. now left.
Qed.

Lemma name_stem_no_slash (name : list ascii) :
  no_slash name = true -> no_slash (name_stem name) = true.
Proof.
  intros H. unfold name_stem. destruct (rfind_dot name) as [i|]; [|exact H].
  destruct ((0 <? i) && (i <? length name - 1)); [now apply no_slash_firstn | exact H].
Qed.

Lemma name_suffix_no_slash (name : list ascii) :
  no_slash name = true -> no_slash (name_suffix name) = true.
Proof.
  intros H. unfold name_suffix. destruct (rfind_dot name) as [i|]; [|reflexivity].
  destruct ((0 <? i) && (i <? length name - 1)); [now apply no_slash_skipn | reflexivity].
Qed.

Lemma str_of_Z_no_slash (i : Z) : no_slash (str_of_Z i) = true.
Proof.
  unfold str_of_Z. pose proof (no_slash_digits _ (str_of_N_digits (Z.abs_N i))) as H.
  destruct (i <? 0)%Z; [|exact H]. unfold no_slash in *. simpl. exact H.
Qed.

Lemma str_of_Z_nonempty (i : Z) : str_of_Z i <> [].
Proof.
  unfold str_of_Z. destruct (i <? 0)%Z; [discriminate | apply str_of_N_nonempty].
Qed.

(** [with_name] never raises inside the planner. *)
Lemma with_name_variant (directory : Path) (metadata : FileMetaData) (i : Z) :
  let base := get_filename_format directory metadata in
  with_name base (suffixed_name base i) = Ok (variant base i).
Proof.
  intros base. destruct (get_filename_format_name directory metadata) as [Hne Hns].
  fold base in Hne, Hns. unfold with_name.
  destruct (str_eqb (path_name base) []) eqn:E.
  { apply str_eqb_eq in E. contradiction. }
  assert (Hv : valid_name (suffixed_name base i) = true); [|now rewrite Hv].
  unfold valid_name, suffixed_name, stem, suffix.
  rewrite contains_slash, negb_involutive.
  rewrite !no_slash_app, name_stem_no_slash, name_suffix_no_slash, str_of_Z_no_slash
    by assumption.
  simpl. rewrite andb_true_r.
  pose proof (str_of_Z_nonempty i) as Hi.
  destruct (name_stem (path_name base)) as [|a [|b s]]; simpl.
  - reflexivity.
  - destruct (str_of_Z i); [congruence|]. simpl.
    now rewrite andb_false_r.
  - now rewrite andb_false_r.
Qed.

(** ** The probing loop *)

Section Probe.
Variable directory : Path.
Variable metadata : FileMetaData.
Let base := get_filename_format directory metadata.

Lemma probe_step (i : Z) (todo : list Z) (w : world) :
  probe base (i :: todo) w
  = if occupied (fs w) (variant base i) then probe base todo w
    else (Ok (variant base i), w).
Proof.
  cbn [probe]. unfold bind, lift, path_exists, ret.
  unfold base. rewrite with_name_variant. fold base.
  destruct (occupied (fs w) (variant base i)); reflexivity.
Qed.

Lemma probe_first_free (pre : list Z) (i : Z) (post : list Z) (w : world) :
  (forall j, In j pre -> occupied (fs w) (variant base j) = true) ->
  occupied (fs w) (variant base i) = false ->
  probe base (pre ++ i :: post) w = (Ok (variant base i), w).
Proof.
  induction pre as [|j pre IH]; intros Hpre Hi.
  - simpl app. rewrite probe_step, Hi. reflexivity.
  - simpl app. rewrite probe_step, (Hpre j) by now left.
    apply IH; [|exact Hi]. intros j' Hj'. apply Hpre. now right.
Qed.

Lemma probe_all_taken (todo : list Z) (w : world) :
  (forall j, In j todo -> occupied (fs w) (variant base j) = true) ->
  probe base todo w
  = (Raise (Exception_ (str "Could not find a unique filename")), w).
Proof.
  induction todo as [|j todo IH]; intros Hall.
  - reflexivity.
  - rewrite probe_step, (Hall j) by now left.
    apply IH. intros j' Hj'. apply Hall. now right.
Qed.
End Probe.

Lemma py_range_split (k : nat) :
  (k < 99)%nat ->
  py_range 1 100
  = map Z.of_nat (seq 1 k) ++ Z.of_nat (S k) :: map Z.of_nat (seq (S (S k)) (98 - k)).
Proof.
  intros H. unfold py_range.
  replace (100 - 1)%nat with (k + S (98 - k))%nat by lia.
  rewrite seq_app, map_app. reflexivity.
Qed.

Lemma in_py_range (j : Z) (lo hi : nat) :
  In j (py_range lo hi) -> exists i, j = Z.of_nat i /\ (lo <= i < hi)%nat.
Proof.
  unfold py_range. intros H. apply in_map_iff in H. destruct H as [i [<- Hi]].
  apply in_seq in Hi. exists i. split; [reflexivity | lia].
Qed.

Lemma forallb_range (P : nat -> bool) (n : nat) :
  forallb P (seq 1 n) = true -> forall i, (1 <= i <= n)%nat -> P i = true.
Proof.
  intros H i Hi. rewrite forallb_forall in H. apply H. apply in_seq. lia.
Qed.

(** C6: when the canonical path and its variants [_1] .. [_k] exist and
    [_(k+1)] is free (k < 99), the planner returns [_(k+1)]; when the
    canonical path and all of [_1] .. [_99] exist, it raises "Could not
    find a unique filename". *)
Theorem collision_monotonicity_and_bound (directory : Path) (metadata : FileMetaData)
  (w : world) :
  let base := get_filename_format directory metadata in
  (forall k : nat,
      (k < 99)%nat ->
      occupied (fs w) base = true ->
      (forall i, (1 <= i <= k)%nat ->
                 occupied (fs w) (variant base (Z.of_nat i)) = true) ->
      occupied (fs w) (variant base (Z.of_nat (S k))) = false ->
      get_unique_filepath directory metadata w
      = (Ok (variant base (Z.of_nat (S k))), w))
  /\ (occupied (fs w) base = true ->
      (forall i, (1 <= i <= 99)%nat ->
                 occupied (fs w) (variant base (Z.of_nat i)) = true) ->
      get_unique_filepath directory metadata w
      = (Raise (Exception_ (str "Could not find a unique filename")), w)).
Proof.
  intros base. unfold get_unique_filepath. fold base. split.
  - intros k Hk _ Hpre Hfree.
    rewrite (py_range_split k Hk).
    apply probe_first_free; [|exact Hfree].
    intros j Hj. apply in_map_iff in Hj. destruct Hj as [i [<- Hi]].
    apply in_seq in Hi. apply Hpre. lia.
  - intros _ Hall. apply probe_all_taken.
    intros j Hj. apply in_py_range in Hj. destruct Hj as [i [-> Hi]].
    apply Hall. lia.
Qed.

Lemma collision_monotonicity_and_bound_witness :
  get_unique_filepath photos scenario_record (quiet (crowded 2))
  = (Ok [str "photos"; str "2021-01-01_01-01-01_3.jpg"], quiet (crowded 2))
  /\ get_unique_filepath photos scenario_record (quiet (crowded 99))
     = (Raise (Exception_ (str "Could not find a unique filename")),
        quiet (crowded 99)).
Proof.
  split.
  - apply (proj1 (collision_monotonicity_and_bound photos scenario_record
                    (quiet (crowded 2))) 2%nat).
    + lia.
    + reflexivity.
    + apply (forallb_range
               (fun i => occupied (crowded 2)
                           (variant (get_filename_format photos scenario_record)
                              (Z.of_nat i)))).
      vm_compute. reflexivity.
    + vm_compute. reflexivity.
  - apply (proj2 (collision_monotonicity_and_bound photos scenario_record
                    (quiet (crowded 99)))).
    + reflexivity.
    + apply (forallb_range
               (fun i => occupied (crowded 99)
                           (variant (get_filename_format photos scenario_record)
                              (Z.of_nat i)))).
      vm_compute. reflexivity.
Defined.

(** ** The canonical format *)

Lemma format_d_no_slash (width : nat) (z : Z) : no_slash (format_d width z) = true.
Proof.
  unfold format_d.
  pose proof (no_slash_digits _ (str_of_N_digits (Z.abs_N z))) as H.
  destruct (z <? 0)%Z.
  - change (no_slash (str "-" ++ repeat "0"%char (width - 1 - length (str_of_N (Z.abs_N z)))
                      ++ str_of_N (Z.abs_N z)) = true).
    rewrite !no_slash_app, H.
    unfold no_slash at 2. rewrite forallb_repeat; reflexivity.
  - rewrite no_slash_app, H. unfold no_slash. rewrite forallb_repeat; reflexivity.
Qed.

Lemma canonical_name_no_slash (m : FileMetaData) :
  no_slash (extension m) = true -> no_slash (canonical_name m) = true.
Proof.
  intros H. unfold canonical_name.
  rewrite !no_slash_app, !format_d_no_slash, H. reflexivity.
Qed.

(** With a separator-free extension the canonical path is the directory
    followed by the one component [canonical_name]. *)
Lemma get_filename_format_single (directory : Path) (m : FileMetaData) :
  no_slash (extension m) = true ->
  get_filename_format directory m = directory ++ [canonical_name m].
Proof.
  intros H. unfold get_filename_format, joinpath.
  pose proof (canonical_name_no_slash m H) as Hns.
  destruct (canonical_name_head m) as [c [r [E [Hs Hd]]]].
  rewrite E in *.
  unfold starts_with. cbn [strip_prefix str list_ascii_of_string].
  destruct (Ascii.eqb_spec "/"%char c) as [E'|_]; [congruence|].
  unfold parse_parts. rewrite split_slash_whole by exact Hns.
  cbn [app filter]. unfold keep_part. cbn [str_eqb str list_ascii_of_string negb andb].
  destruct (Ascii.eqb_spec c "."%char) as [|_]; [contradiction|].
  reflexivity.
Qed.

Lemma app_same_length {A} (a a' b b' : list A) :
  length a = length a' -> a ++ b = a' ++ b' -> a = a' /\ b = b'.
Proof.
  revert a'. induction a as [|x a IH]; intros [|x' a'] Hl H; simpl in *;
    try discriminate.
  - auto.
  - injection H as -> H. destruct (IH a' ltac:(lia) H) as [-> ->]. auto.
Qed.

Lemma padded_format_d (w : nat) (z : Z) :
  (0 <= z < 10 ^ Z.of_nat (S w))%Z -> padded (S w) z (format_d (S w) z).
Proof.
  intros H. repeat split.
  - now apply format_d_length.
  - apply format_d_digits. lia.
  - apply py_int_format_d. lia.
Qed.

Lemma padded_inj (w : nat) (z z' : Z) (s : list ascii) :
  padded w z s -> padded w z' s -> z = z'.
Proof. intros [_ [_ H]] [_ [_ H']]. congruence. Qed.

Lemma in_domain_ranges (m : FileMetaData) :
  in_domain m = true ->
  (0 <= year m < 10 ^ Z.of_nat 4 /\ 0 <= month m < 10 ^ Z.of_nat 2
   /\ 0 <= day m < 10 ^ Z.of_nat 2 /\ 0 <= hour m < 10 ^ Z.of_nat 2
   /\ 0 <= minute m < 10 ^ Z.of_nat 2 /\ 0 <= second m < 10 ^ Z.of_nat 2)%Z
  /\ no_slash (extension m) = true.
Proof.
  unfold in_domain. intros H.
  repeat (apply andb_true_iff in H; destruct H as [H ?]).
  change (10 ^ Z.of_nat 4)%Z with 10000%Z. change (10 ^ Z.of_nat 2)%Z with 100%Z.
  split; [lia | assumption].
Qed.

Lemma canonical_name_inj (m1 m2 : FileMetaData) :
  in_domain m1 = true -> in_domain m2 = true ->
  canonical_name m1 = canonical_name m2 -> m1 = m2.
Proof.
  intros H1 H2 E.
  apply in_domain_ranges in H1, H2.
  destruct H1 as [[Hy1 [Hmo1 [Hd1 [Hh1 [Hmi1 Hs1]]]]] _].
  destruct H2 as [[Hy2 [Hmo2 [Hd2 [Hh2 [Hmi2 Hs2]]]]] _].
  pose proof (padded_format_d 3 _ Hy1) as Py1. pose proof (padded_format_d 3 _ Hy2) as Py2.
  pose proof (padded_format_d 1 _ Hmo1) as Pmo1. pose proof (padded_format_d 1 _ Hmo2) as Pmo2.
  pose proof (padded_format_d 1 _ Hd1) as Pd1. pose proof (padded_format_d 1 _ Hd2) as Pd2.
  pose proof (padded_format_d 1 _ Hh1) as Ph1. pose proof (padded_format_d 1 _ Hh2) as Ph2.
  pose proof (padded_format_d 1 _ Hmi1) as Pmi1. pose proof (padded_format_d 1 _ Hmi2) as Pmi2.
  pose proof (padded_format_d 1 _ Hs1) as Ps1. pose proof (padded_format_d 1 _ Hs2) as Ps2.
  unfold canonical_name in E.
  repeat match type of E with
         | ?a ++ _ = ?a' ++ _ =>
             let Ha := fresh "Ea" in
             apply app_same_length in E;
             [destruct E as [Ha E]
             | first [reflexivity
                     | match goal with
                       | P : padded _ _ a, P' : padded _ _ a' |- _ =>
                           rewrite (proj1 P), (proj1 P'); reflexivity
                       end]]
         end.
  rewrite Ea in Py1. rewrite Ea1 in Pmo1. rewrite Ea3 in Pd1.
  rewrite Ea5 in Ph1. rewrite Ea7 in Pmi1. rewrite Ea9 in Ps1.
  destruct m1, m2; simpl in *.
  f_equal; solve [eapply padded_inj; eassumption | assumption].
Qed.

(** C7: on the NormalizedTimestamp domain the canonical path is the
    directory followed by the zero-padded name [YYYY-MM-DD_HH-MM-SS.<ext>]
    (four digits for the year, two for every other field), equal records
    give equal paths, and records that differ in any field give different
    paths. *)
Theorem canonical_format_injective (directory : Path) (m1 m2 : FileMetaData) :
  in_domain m1 = true -> in_domain m2 = true ->
  (exists Y Mo D H Mi S,
      get_filename_format directory m1
      = directory ++ [Y ++ str "-" ++ Mo ++ str "-" ++ D ++ str "_" ++ H ++ str "-"
                      ++ Mi ++ str "-" ++ S ++ str "." ++ extension m1]
      /\ padded 4 (year m1) Y /\ padded 2 (month m1) Mo /\ padded 2 (day m1) D
      /\ padded 2 (hour m1) H /\ padded 2 (minute m1) Mi /\ padded 2 (second m1) S)
  /\ (get_filename_format directory m1 = get_filename_format directory m2 <-> m1 = m2).
Proof.
  intros H1 H2. split.
  - destruct (in_domain_ranges m1 H1) as [[Hy [Hmo [Hd [Hh [Hmi Hs]]]]] Hx].
    exists (format_d 4 (year m1)), (format_d 2 (month m1)), (format_d 2 (day m1)),
      (format_d 2 (hour m1)), (format_d 2 (minute m1)), (format_d 2 (second m1)).
    split; [now apply get_filename_format_single|].
    repeat split; first [apply (padded_format_d 3) | apply (padded_format_d 1)];
      assumption.
  - split; [|now intros ->].
    intros E.
    rewrite !get_filename_format_single in E
      by (eapply proj2, in_domain_ranges; eassumption).
    apply app_inv_head in E. injection E as E.
    now apply canonical_name_inj.
Qed.

Lemma canonical_format_injective_witness :
  (exists Y Mo D H Mi S,
      get_filename_format photos scenario_record
      = photos ++ [Y ++ str "-" ++ Mo ++ str "-" ++ D ++ str "_" ++ H ++ str "-"
                   ++ Mi ++ str "-" ++ S ++ str "." ++ extension scenario_record]
      /\ padded 4 (year scenario_record) Y /\ padded 2 (month scenario_record) Mo
      /\ padded 2 (day scenario_record) D /\ padded 2 (hour scenario_record) H
      /\ padded 2 (minute scenario_record) Mi /\ padded 2 (second scenario_record) S)
  /\ (get_filename_format photos scenario_record
      = get_filename_format photos (mkFileMetaData 2021 1 1 1 1 2 (str "jpg"))
      <-> scenario_record = mkFileMetaData 2021 1 1 1 1 2 (str "jpg")).
Proof.
  apply (canonical_format_injective photos scenario_record
           (mkFileMetaData 2021 1 1 1 1 2 (str "jpg"))); reflexivity.
Defined.

(** ** The matcher is sound for [seq_matches] *)

Lemma strip_prefix_app (l s s' : list ascii) :
  strip_prefix l s = Some s' -> s = l ++ s'.
Proof.
  revert s. induction l as [|a l IH]; intros s H; simpl in H.
  - now injection H as ->.
  - destruct s as [|b s]; [discriminate|].
    destruct (Ascii.eqb_spec a b) as [->|]; [|discriminate].
    simpl. f_equal. now apply IH.
Qed.

Lemma strip_prefix_same (l s : list ascii) : strip_prefix l (l ++ s) = Some s.
Proof.
  induction l as [|a l IH]; simpl; [reflexivity|]. now rewrite Ascii.eqb_refl.
Qed.

Lemma take_cls_sound (c : cls) (n : nat) (s w s' : list ascii) :
  take_cls c n s = Some (w, s') ->
  s = w ++ s' /\ cls_word c (Exactly n) w.
Proof.
  revert s w s'. induction n as [|n IH]; intros s w s' H; simpl in H.
  - injection H as <- <-. repeat split.
  - destruct s as [|a s]; [discriminate|].
    destruct (in_cls c a) eqn:Ea; [|discriminate].
    destruct (take_cls c n s) as [[w0 r]|] eqn:E; [|discriminate].
    injection H as <- <-. destruct (IH _ _ _ E) as [-> [Hw Hl]].
    repeat split; simpl in *; [now rewrite Ea | now f_equal].
Qed.

Lemma take_cls_app (c : cls) (n : nat) (w s : list ascii) :
  cls_word c (Exactly n) w -> take_cls c n (w ++ s) = Some (w, s).
Proof.
  intros [Hw Hl]. revert n Hl. induction w as [|a w IH]; intros n Hl; simpl in *.
  - now subst n.
  - subst n. apply andb_true_iff in Hw. destruct Hw as [Ha Hw].
    simpl. rewrite Ha, (IH Hw _ eq_refl). reflexivity.
Qed.

Lemma greedy_sound {A} (c : cls) (k : list ascii -> list ascii -> option A)
  (s acc : list ascii) (r : A) :
  greedy c k acc s = Some r ->
  exists w s', s = w ++ s' /\ cls_word c OneOrMore w /\ k (acc ++ w) s' = Some r.
Proof.
  revert acc. induction s as [|a s IH]; intros acc H; simpl in H; [discriminate|].
  destruct (in_cls c a) eqn:Ea; [|discriminate].
  destruct (greedy c k (acc ++ [a]) s) as [r'|] eqn:E.
  - injection H as ->. destruct (IH _ E) as [w [s' [-> [[Hw Hl] Hk]]]].
    exists (a :: w), s'. rewrite <- app_assoc in Hk.
    repeat split; simpl; [now rewrite Ea | lia | exact Hk].
  - exists [a], s. repeat split; simpl; [now rewrite Ea | lia | exact H].
Qed.

Lemma run_sound (atoms : list atom) (s : list ascii) (caps : list (list ascii)) :
  run atoms s = Some caps -> seq_matches atoms s caps.
Proof.
  revert s caps. induction atoms as [|[l|c [n|]] atoms IH]; intros s caps H;
    cbn [run] in H.
  - injection H as <-. constructor.
  - destruct (strip_prefix (str l) s) as [s'|] eqn:E; [|discriminate].
    apply strip_prefix_app in E. subst s. constructor. now apply IH.
  - destruct (take_cls c n s) as [[w s']|] eqn:E; [|discriminate].
    apply take_cls_sound in E. destruct E as [-> Hw].
    destruct (run atoms s') as [caps'|] eqn:E'; [|discriminate].
    injection H as <-. constructor; [exact Hw | now apply IH].
  - apply greedy_sound in H. destruct H as [w [s' [-> [Hw Hk]]]].
    destruct (run atoms s') as [caps'|] eqn:E'; [|discriminate].
    injection Hk as <-. constructor; [exact Hw | now apply IH].
Qed.

Lemma first_match_sound (alts : list (list atom)) (s : list ascii)
  (caps : list (list ascii)) :
  first_match alts s = Some caps ->
  exists alt, In alt alts /\ seq_matches alt s caps.
Proof.
  induction alts as [|alt alts IH]; intros H; simpl in H; [discriminate|].
  destruct (run alt s) as [g|] eqn:E.
  - injection H as ->. exists alt. split; [now left | now apply run_sound].
  - destruct (IH H) as [alt' [Hin Hm]]. exists alt'. split; [now right | exact Hm].
Qed.

(** ** Text after a match never turns it into a failure *)

Lemma strip_prefix_more (l s s' t : list ascii) :
  strip_prefix l s = Some s' -> strip_prefix l (s ++ t) = Some (s' ++ t).
Proof.
  intros H. apply strip_prefix_app in H. subst s.
  rewrite <- app_assoc. apply strip_prefix_same.
Qed.

Lemma take_cls_more (c : cls) (n : nat) (s w s' t : list ascii) :
  take_cls c n s = Some (w, s') -> take_cls c n (s ++ t) = Some (w, s' ++ t).
Proof.
  intros H. apply take_cls_sound in H. destruct H as [-> Hw].
  rewrite <- app_assoc. now apply take_cls_app.
Qed.

Lemma greedy_more {A} (c : cls) (k k' : list ascii -> list ascii -> option A)
  (t : list ascii) :
  (forall w x r, k w x = Some r -> exists r', k' w (x ++ t) = Some r') ->
  forall s acc r, greedy c k acc s = Some r ->
                  exists r', greedy c k' acc (s ++ t) = Some r'.
Proof.
  intros Hk. induction s as [|a s IH]; intros acc r H; simpl in H; [discriminate|].
  simpl. destruct (in_cls c a); [|discriminate].
  destruct (greedy c k (acc ++ [a]) s) as [r0|] eqn:E.
  - destruct (IH _ _ E) as [r' ->]. now exists r'.
  - destruct (greedy c k' (acc ++ [a]) (s ++ t)) as [r1|]; [now exists r1|].
    now apply (Hk _ _ r).
Qed.

Lemma run_more (atoms : list atom) (s t : list ascii) (caps : list (list ascii)) :
  run atoms s = Some caps -> exists caps', run atoms (s ++ t) = Some caps'.
Proof.
  revert s caps. induction atoms as [|[l|c [n|]] atoms IH]; intros s caps H;
    cbn [run] in *.
  - now exists [].
  - destruct (strip_prefix (str l) s) as [s'|] eqn:E; [|discriminate].
    rewrite (strip_prefix_more _ _ _ t E). now apply (IH _ caps).
  - destruct (take_cls c n s) as [[w s']|] eqn:E; [|discriminate].
    rewrite (take_cls_more _ _ _ _ _ t E).
    destruct (run atoms s') as [caps'|] eqn:E'; [|discriminate].
    destruct (IH _ _ E') as [caps'' ->]. now eexists.
  - apply (greedy_more c (fun w s' => option_map (cons w) (run atoms s'))
             (fun w s' => option_map (cons w) (run atoms s')) t)
      with (r := caps); [|exact H].
    intros w x r Hr.
    destruct (run atoms x) as [caps'|] eqn:E'; [|discriminate].
    destruct (IH _ _ E') as [caps'' ->]. now eexists.
Qed.

Lemma first_match_more (alts : list (list atom)) (s t : list ascii)
  (caps : list (list ascii)) :
  first_match alts s = Some caps -> exists caps', first_match alts (s ++ t) = Some caps'.
Proof.
  induction alts as [|alt alts IH]; intros H; simpl in *; [discriminate|].
  destruct (run alt (s ++ t)) as [g|] eqn:E; [now exists g|].
  destruct (run alt s) as [g|] eqn:E'.
  - destruct (run_more alt s t g E') as [g' Hg']. congruence.
  - now apply IH.
Qed.

(** ** The extension *)

Lemma rfind_dot_lt (s : list ascii) (i : nat) :
  rfind_dot s = Some i -> (i < length s)%nat.
Proof.
  revert i. induction s as [|a s IH]; intros i H; simpl in H; [discriminate|].
  destruct (rfind_dot s) as [j|].
  - injection H as <-. specialize (IH j eq_refl). simpl. lia.
  - destruct (Ascii.eqb a "."%char); [|discriminate]. injection H as <-. simpl. lia.
Qed.

Lemma rfind_dot_zero (c : ascii) (r : list ascii) :
  rfind_dot (c :: r) = Some 0%nat -> c = "."%char.
Proof.
  simpl. destruct (rfind_dot r); [discriminate|].
  destruct (Ascii.eqb_spec c "."%char); [auto | discriminate].
Qed.

Lemma after_last_dot_rfind (s : list ascii) :
  after_last_dot s
  = match rfind_dot s with
    | Some i => Some (skipn (S i) s)
    | None => None
    end.
Proof.
  induction s as [|a s IH]; [reflexivity|].
  cbn [after_last_dot rfind_dot]. rewrite IH.
  destruct (rfind_dot s) as [i|]; [reflexivity|].
  destruct (Ascii.eqb a "."%char); reflexivity.
Qed.

(** For a name that has a dot and does not start with one, what pathlib
    calls the suffix, less its dot, is the text after the last dot. *)
Lemma suffix_after_last_dot (c : ascii) (r : list ascii) :
  c <> "."%char ->
  after_last_dot (c :: r) <> None ->
  after_last_dot (c :: r) = Some (skipn 1 (name_suffix (c :: r))).
Proof.
  intros Hc Hsome. rewrite after_last_dot_rfind in *. unfold name_suffix.
  destruct (rfind_dot (c :: r)) as [i|] eqn:E; [|congruence].
  pose proof (rfind_dot_lt _ _ E) as Hlt.
  destruct i as [|i]; [apply rfind_dot_zero in E; contradiction|].
  f_equal.
  destruct (Nat.ltb_spec (S i) (length (c :: r) - 1)) as [Hin|Hout].
  - cbn [Nat.ltb Nat.leb andb]. now rewrite skipn_skipn.
  - cbn [Nat.ltb Nat.leb andb]. apply skipn_all2. lia.
Qed.

Lemma after_last_dot_app (p t : list ascii) :
  after_last_dot t <> None -> after_last_dot (p ++ t) <> None.
Proof.
  intros H. induction p as [|a p IH]; [exact H|].
  simpl. destruct (after_last_dot (p ++ t)); [discriminate | contradiction].
Qed.

Lemma seq_matches_lead (x : ascii) (atoms : list atom) (s : list ascii)
  (caps : list (list ascii)) :
  seq_matches atoms s caps ->
  lead_not x atoms = true ->
  exists c r, s = c :: r /\ c <> x.
Proof.
  intros Hm Hl. inversion Hm as [|l atoms' s' caps' Hm'|c q atoms' w s' caps' Hw Hm'];
    subst; cbn [lead_not] in Hl; [discriminate| |].
  - destruct (str l) as [|c r]; [discriminate|].
    exists c, (r ++ s'). split; [reflexivity|].
    intros ->. now rewrite Ascii.eqb_refl in Hl.
  - destruct Hw as [Hw Hlen].
    destruct w as [|a w].
    + destruct q as [[|n]|]; simpl in *; try discriminate; lia.
    + exists a, (w ++ s'). split; [reflexivity|].
      intros ->. simpl in Hw. apply andb_true_iff in Hw. destruct Hw as [Hw _].
      destruct q as [[|n]|]; try discriminate; rewrite Hw in Hl; discriminate.
Qed.

Lemma seq_matches_dot (atoms : list atom) (s : list ascii) (caps : list (list ascii)) :
  seq_matches atoms s caps ->
  existsb is_dot_lit atoms = true ->
  after_last_dot s <> None.
Proof.
  induction 1 as [s|l atoms s caps Hm IH|c q atoms w s caps Hw Hm IH];
    cbn [existsb is_dot_lit orb]; intros Hd.
  - discriminate.
  - destruct (str_eqb (str l) (str ".")) eqn:E.
    + apply str_eqb_eq in E. rewrite E. cbn [str list_ascii_of_string app after_last_dot].
      destruct (after_last_dot s); discriminate.
    + apply after_last_dot_app. now apply IH.
  - apply after_last_dot_app. now apply IH.
Qed.

Lemma pattern_leads_and_dots :
  Forall (fun alt => lead_not "."%char alt = true /\ existsb is_dot_lit alt = true)
    pattern.
Proof. repeat constructor. Qed.

(** Every name the pattern matches has a dot and does not start with one. *)
Lemma matched_name_extension (name : list ascii) (caps : list (list ascii)) :
  re_match_groups name = Some caps ->
  after_last_dot name = Some (skipn 1 (name_suffix name)).
Proof.
  intros H. apply first_match_sound in H. destruct H as [alt [Hin Hm]].
  pose proof pattern_leads_and_dots as Hp. rewrite Forall_forall in Hp.
  destruct (Hp alt Hin) as [Hl Hd].
  destruct (seq_matches_lead _ _ _ _ Hm Hl) as [c [r [-> Hc]]].
  apply suffix_after_last_dot; [exact Hc|].
  now apply (seq_matches_dot _ _ _ Hm).
Qed.

Lemma parse_filename_record (name : list ascii) (r : FileMetaData) :
  parse_filename name = Ok (Some r) ->
  extension r = skipn 1 (name_suffix name)
  /\ exists caps, re_match_groups name = Some caps.
Proof.
  unfold parse_filename.
  destruct (re_match_groups name) as [caps|]; [|discriminate].
  destruct (unpack3_int (firstn 3 caps)) as [[[y mo] d]|e]; simpl; [|discriminate].
  match goal with
  | |- rbind ?hms _ = _ -> _ => destruct hms as [[[h mi] se]|e]
  end; simpl; [|discriminate].
  intros H. injection H as <-. simpl. split; [reflexivity | now exists caps].
Qed.

(** C8: whenever the parser returns a record, its extension is the text of
    the name after the last dot. *)
Theorem extension_is_after_last_dot (name : list ascii) (r : FileMetaData) :
  parse_filename name = Ok (Some r) ->
  after_last_dot name = Some (extension r).
Proof.
  intros H. apply parse_filename_record in H. destruct H as [-> [caps Hc]].
  now apply (matched_name_extension name caps).
Qed.

Lemma extension_is_after_last_dot_witness :
  parse_filename (str "IMG_2021-01-01-01-01-01-123-1.tar.gz")
  = Ok (Some (mkFileMetaData 2021 1 1 1 1 1 (str "gz")))
  /\ after_last_dot (str "IMG_2021-01-01-01-01-01-123-1.tar.gz") = Some (str "gz").
Proof.
  split; [reflexivity|].
  apply (extension_is_after_last_dot (str "IMG_2021-01-01-01-01-01-123-1.tar.gz")
           (mkFileMetaData 2021 1 1 1 1 1 (str "gz"))).
  reflexivity.
Defined.

(** ** What the groups of a match look like *)

Lemma seq_matches_groups (atoms : list atom) (s : list ascii) (caps : list (list ascii)) :
  seq_matches atoms s caps ->
  Forall2 (fun g w => cls_word (fst g) (snd g) w) (groups_of atoms) caps.
Proof.
  induction 1; simpl; [constructor | assumption | now constructor].
Qed.

Lemma py_int_digits (w : list ascii) :
  w <> [] -> forallb is_digit w = true -> py_int w = Ok (int_of w).
Proof.
  intros Hne Hd. unfold py_int. destruct w; [congruence|]. now rewrite Hd.
Qed.

Lemma py_int_digit_word (n : nat) (w : list ascii) :
  cls_word Digit (Exactly (S n)) w -> py_int w = Ok (int_of w).
Proof.
  intros [Hd Hl]. apply py_int_digits; [|exact Hd].
  intros ->. discriminate.
Qed.

Ltac invert_groups :=
  repeat match goal with
         | H : Forall2 _ (_ :: _) _ |- _ => inversion H; subst; clear H
         | H : Forall2 _ [] _ |- _ => inversion H; subst; clear H
         end.

(** Every alternative but the video one captures year, month, day, hour,
    minute and second as its first six groups, has at least one more
    group, and does not start with a ["V"]. *)
Lemma matched_shapes (name : list ascii) (caps : list (list ascii)) :
  re_match_groups name = Some caps ->
  (exists c0 c1 c2 c3 c4 c5 c6 tl,
      caps = c0 :: c1 :: c2 :: c3 :: c4 :: c5 :: c6 :: tl
      /\ cls_word Digit (Exactly 4) c0 /\ cls_word Digit (Exactly 2) c1
      /\ cls_word Digit (Exactly 2) c2 /\ cls_word Digit (Exactly 2) c3
      /\ cls_word Digit (Exactly 2) c4 /\ cls_word Digit (Exactly 2) c5
      /\ exists c r, name = c :: r /\ c <> "V"%char)
  \/ seq_matches alt5 name caps.
Proof.
  intros H. apply first_match_sound in H. destruct H as [alt [Hin Hm]].
  pose proof (seq_matches_groups _ _ _ Hm) as Hg.
  pose proof (seq_matches_lead "V"%char _ _ _ Hm) as Hl.
  unfold pattern in Hin. simpl in Hin.
  destruct Hin as [<-|[<-|[<-|[<-|[<-|[<-|[<-|[<-|[<-|[]]]]]]]]]];
    try (right; exact Hm);
    left; specialize (Hl eq_refl); cbn in Hg; invert_groups;
    do 8 eexists; (split; [reflexivity|]); repeat (split; [assumption|]); exact Hl.
Qed.

(** The video alternative, read off a match. *)
Lemma vid_shape (name : list ascii) (caps : list (list ascii)) :
  seq_matches alt5 name caps ->
  exists y mo d tag ord ext rest,
    caps = [y; mo; d; tag; ord; ext]
    /\ name = str "VID_" ++ y ++ mo ++ d ++ str "_" ++ tag ++ ord ++ str "." ++ ext ++ rest
    /\ cls_word Digit (Exactly 4) y /\ cls_word Digit (Exactly 2) mo
    /\ cls_word Digit (Exactly 2) d /\ cls_word Word (Exactly 2) tag
    /\ cls_word Digit (Exactly 4) ord /\ cls_word Word OneOrMore ext.
Proof.
  intros H. unfold alt5, d4, d2, w2, wplus in H.
  repeat match goal with
         | H : seq_matches (_ :: _) _ _ |- _ => inversion H; subst; clear H
         | H : seq_matches [] _ _ |- _ => inversion H; subst; clear H
         end.
  do 7 eexists. split; [reflexivity|]. split; [reflexivity|].
  repeat (split; [assumption|]). assumption.
Qed.

(** ** The record the parser builds from the groups *)

(** The alternatives that carry a time of day. *)
Lemma parse_timed (name c0 c1 c2 c3 c4 c5 c6 : list ascii) (tl : list (list ascii)) :
  re_match_groups name = Some (c0 :: c1 :: c2 :: c3 :: c4 :: c5 :: c6 :: tl) ->
  cls_word Digit (Exactly 4) c0 -> cls_word Digit (Exactly 2) c1 ->
  cls_word Digit (Exactly 2) c2 -> cls_word Digit (Exactly 2) c3 ->
  cls_word Digit (Exactly 2) c4 -> cls_word Digit (Exactly 2) c5 ->
  parse_filename name
  = Ok (Some (if contains (str "WA") name
              then mkFileMetaData (int_of c0) (int_of c1) (int_of c2)
                     (int_of c4) 0 0 (skipn 1 (name_suffix name))
              else mkFileMetaData (int_of c0) (int_of c1) (int_of c2)
                     (int_of c3) (int_of c4) (int_of c5)
                     (skipn 1 (name_suffix name)))).
Proof.
  intros H H0 H1 H2 H3 H4 H5. unfold parse_filename. rewrite H.
  cbn [firstn skipn unpack3_int index nth_error length Nat.eqb andb].
  rewrite (py_int_digit_word _ _ H0), (py_int_digit_word _ _ H1),
    (py_int_digit_word _ _ H2).
  cbn [rbind].
  destruct (contains (str "WA") name).
  - rewrite (py_int_digit_word _ _ H4). reflexivity.
  - rewrite (py_int_digit_word _ _ H3), (py_int_digit_word _ _ H4),
      (py_int_digit_word _ _ H5). reflexivity.
Qed.

Lemma cls_word_firstn (c : cls) (n k : nat) (w : list ascii) :
  cls_word c (Exactly (k + n)) w -> cls_word c (Exactly k) (firstn k w).
Proof.
  intros [Hw Hl]. split.
  - rewrite <- (firstn_skipn k w), forallb_app in Hw. now apply andb_true_iff in Hw.
  - rewrite length_firstn. lia.
Qed.

Lemma cls_word_skipn (c : cls) (n k : nat) (w : list ascii) :
  cls_word c (Exactly (k + n)) w -> cls_word c (Exactly n) (skipn k w).
Proof.
  intros [Hw Hl]. split.
  - rewrite <- (firstn_skipn k w), forallb_app in Hw. now apply andb_true_iff in Hw.
  - rewrite length_skipn. lia.
Qed.

Lemma contains_prefix (needle rest : list ascii) : contains needle (needle ++ rest) = true.
Proof.
  destruct needle as [|a needle]; [destruct rest; reflexivity|].
  cbn [contains app]. unfold starts_with.
  change (a :: needle ++ rest) with ((a :: needle) ++ rest).
  now rewrite strip_prefix_same.
Qed.

(** The video alternative. *)
Lemma parse_vid (name y mo d tag ord ext rest : list ascii) :
  re_match_groups name = Some [y; mo; d; tag; ord; ext] ->
  name = str "VID_" ++ rest ->
  cls_word Digit (Exactly 4) y -> cls_word Digit (Exactly 2) mo ->
  cls_word Digit (Exactly 2) d -> cls_word Digit (Exactly 4) ord ->
  parse_filename name
  = if contains (str "WA") name
    then Ok (Some (mkFileMetaData (int_of y) (int_of mo) (int_of d)
                     (int_of ord) 0 0 (skipn 1 (name_suffix name))))
    else rbind (py_int tag)
           (fun h => Ok (Some (mkFileMetaData (int_of y) (int_of mo) (int_of d)
                                 h (int_of (firstn 2 ord)) (int_of (skipn 2 ord))
                                 (skipn 1 (name_suffix name))))).
Proof.
  intros H Hn Hy Hmo Hd Hord. unfold parse_filename. rewrite H.
  change (firstn 3 [y; mo; d; tag; ord; ext]) with [y; mo; d].
  cbn [unpack3_int index nth_error length Nat.eqb andb].
  rewrite (py_int_digit_word _ _ Hy), (py_int_digit_word _ _ Hmo),
    (py_int_digit_word _ _ Hd).
  cbn [rbind].
  destruct (contains (str "WA") name).
  - rewrite (py_int_digit_word _ _ Hord). reflexivity.
  - assert (Hv : contains (str "VID") name = true).
    { rewrite Hn. apply (contains_prefix (str "VID") (str "_" ++ rest)). }
    rewrite Hv.
    rewrite (py_int_digit_word 1 _ (cls_word_firstn Digit 2 2 ord Hord)).
    rewrite (py_int_digit_word 1 _ (cls_word_skipn Digit 2 2 ord Hord)).
    destruct (py_int tag); reflexivity.
Qed.

(** ** Names with text after the match *)

Lemma starts_with_more (needle s t : list ascii) :
  starts_with needle s = true -> starts_with needle (s ++ t) = true.
Proof.
  unfold starts_with. destruct (strip_prefix needle s) as [s'|] eqn:E; [|discriminate].
  now rewrite (strip_prefix_more _ _ _ t E).
Qed.

Lemma contains_more (needle s t : list ascii) :
  contains needle s = true -> contains needle (s ++ t) = true.
Proof.
  induction s as [|a s IH]; intros H.
  - simpl in H. rewrite orb_false_r in H.
    apply (starts_with_more _ _ t) in H. simpl in H.
    destruct t; simpl; rewrite H; reflexivity.
  - cbn [contains] in H. apply orb_true_iff in H.
    change ((a :: s) ++ t) with (a :: s ++ t). cbn [contains].
    apply orb_true_iff. destruct H as [H|H].
    + left. apply (starts_with_more _ _ t) in H. exact H.
    + right. now apply IH.
Qed.

(** Two names that both have the video shape and of which one starts the
    other carry the same tag. *)
Lemma vid_same_tag (t y mo d tag ord ext rest y' mo' d' tag' ord' ext' rest' : list ascii) :
  (str "VID_" ++ y ++ mo ++ d ++ str "_" ++ tag ++ ord ++ str "." ++ ext ++ rest) ++ t
  = str "VID_" ++ y' ++ mo' ++ d' ++ str "_" ++ tag' ++ ord' ++ str "." ++ ext' ++ rest' ->
  cls_word Digit (Exactly 4) y -> cls_word Digit (Exactly 2) mo ->
  cls_word Digit (Exactly 2) d -> cls_word Word (Exactly 2) tag ->
  cls_word Digit (Exactly 4) y' -> cls_word Digit (Exactly 2) mo' ->
  cls_word Digit (Exactly 2) d' -> cls_word Word (Exactly 2) tag' ->
  tag = tag'.
Proof.
  intros E [_ Ly] [_ Lmo] [_ Ld] [_ Lt] [_ Ly'] [_ Lmo'] [_ Ld'] [_ Lt'].
  rewrite <- !app_assoc in E.
  apply app_inv_head in E.
  apply app_same_length in E; [|congruence]. destruct E as [_ E].
  apply app_same_length in E; [|congruence]. destruct E as [_ E].
  apply app_same_length in E; [|congruence]. destruct E as [_ E].
  apply app_inv_head in E.
  apply app_same_length in E; [|congruence]. now destruct E as [E _].
Qed.

(** C10: the pattern is matched at the start of the name only.  If the
    parser returns a record for [s] it returns one for [s ++ t] too, for
    any [t], and the extension of that record is the text after the last
    dot of [s ++ t]. *)
Theorem trailing_text_is_accepted (s t : list ascii) (r : FileMetaData) :
  parse_filename s = Ok (Some r) ->
  exists r', parse_filename (s ++ t) = Ok (Some r')
             /\ after_last_dot (s ++ t) = Some (extension r').
Proof.
  intros H.
  assert (exists r', parse_filename (s ++ t) = Ok (Some r')) as [r' Hr'].
  { destruct (parse_filename_record _ _ H) as [_ [caps Hc]].
    destruct (first_match_more pattern s t caps Hc) as [caps' Hc'].
    fold (re_match_groups (s ++ t)) in Hc'.
    destruct (matched_shapes _ _ Hc')
      as [(c0 & c1 & c2 & c3 & c4 & c5 & c6 & tl & -> & H0 & H1 & H2 & H3 & H4 & H5 & _)
         | Hv'].
    - rewrite (parse_timed _ _ _ _ _ _ _ _ _ Hc' H0 H1 H2 H3 H4 H5). now eexists.
    - destruct (vid_shape _ _ Hv')
        as (y' & mo' & d' & tag' & ord' & ext' & rest' & -> & Hn' & Hy' & Hmo' & Hd'
            & Ht' & Ho' & _).
      rewrite (parse_vid _ _ _ _ _ _ _ _ Hc' Hn' Hy' Hmo' Hd' Ho').
      destruct (contains (str "WA") (s ++ t)) eqn:Ewa; [now eexists|].
      destruct (matched_shapes _ _ Hc)
        as [(c0 & c1 & c2 & c3 & c4 & c5 & c6 & tl & _ & _ & _ & _ & _ & _ & _
             & c & r0 & -> & Hc0)
           | Hv].
      + exfalso. apply Hc0. cbn in Hn'. now injection Hn'.
      + destruct (vid_shape _ _ Hv)
          as (y & mo & d & tag & ord & ext & rest & -> & Hn & Hy & Hmo & Hd
              & Ht & Ho & _).
        rewrite (parse_vid _ _ _ _ _ _ _ _ Hc Hn Hy Hmo Hd Ho) in H.
        destruct (contains (str "WA") s) eqn:Ewa0.
        { apply (contains_more _ _ t) in Ewa0. congruence. }
        rewrite Hn in Hn'.
        rewrite <- (vid_same_tag _ _ _ _ _ _ _ _ _ _ _ _ _ _ _ Hn' Hy Hmo Hd Ht Hy' Hmo' Hd' Ht').
        destruct (py_int tag); [now eexists | discriminate]. }
  exists r'. split; [exact Hr'|].
  destruct (parse_filename_record _ _ Hr') as [-> [caps' Hc']].
  exact (matched_name_extension _ _ Hc').
Qed.

Lemma trailing_text_is_accepted_witness :
  exists r', parse_filename (str "2021-01-01 01.01.01.jpg" ++ str ".bak") = Ok (Some r')
             /\ after_last_dot (str "2021-01-01 01.01.01.jpg" ++ str ".bak")
                = Some (extension r').
Proof.
  apply (trailing_text_is_accepted (str "2021-01-01 01.01.01.jpg") (str ".bak")
           scenario_record).
  reflexivity.
Defined.

Example parse_with_trailing_text :
  parse_filename (str "2021-01-01 01.01.01.jpg.bak")
  = Ok (Some (mkFileMetaData 2021 1 1 1 1 1 (str "bak"))).
Proof. reflexivity. Qed.

(** ** The video alternative *)

(** When the rest of the pattern cannot fail, a one-or-more group finds
    its run as soon as the first character is in the class. *)
Lemma greedy_last {A} (c : cls) (k : list ascii -> list ascii -> option A)
  (a : ascii) (s acc : list ascii) :
  (forall w s', k w s' <> None) ->
  in_cls c a = true ->
  exists w s', greedy c k acc (a :: s) = k w s'.
Proof.
  intros Hk. revert a acc. induction s as [|b s IH]; intros a acc Ha.
  - simpl. rewrite Ha. now eexists _, _.
  - cbn [greedy]. rewrite Ha.
    destruct (in_cls c b) eqn:Eb.
    + destruct (IH b (acc ++ [a]) Eb) as [w [s' Hw]].
      cbn [greedy] in Hw. rewrite Eb in Hw. rewrite Hw.
      exists w, s'. destruct (k w s') eqn:E; [reflexivity | now apply Hk in E].
    + now eexists _, _.
Qed.

(** A name of the video shape is matched by the fifth alternative, and by
    none before it. *)
Lemma vid_groups (y mo d tag ord ext rest : list ascii) :
  cls_word Digit (Exactly 4) y -> cls_word Digit (Exactly 2) mo ->
  cls_word Digit (Exactly 2) d -> cls_word Word (Exactly 2) tag ->
  cls_word Digit (Exactly 4) ord -> cls_word Word OneOrMore ext ->
  exists ext',
    re_match_groups
      (str "VID_" ++ y ++ mo ++ d ++ str "_" ++ tag ++ ord ++ str "." ++ ext ++ rest)
    = Some [y; mo; d; tag; ord; ext'].
Proof.
  intros Hy Hmo Hd Ht Ho [He Hl].
  destruct ext as [|a ext]; [simpl in Hl; lia|].
  simpl in He. apply andb_true_iff in He. destruct He as [Ha _].
  unfold re_match_groups, pattern.
  change (str "VID_" ++ ?x) with ("V"%char :: "I"%char :: "D"%char :: "_"%char :: x).
  cbn [first_match].
  change (run alt1 ("V"%char :: ?x)) with (@None (list (list ascii))).
  change (run alt2 ("V"%char :: ?x)) with (@None (list (list ascii))).
  change (run alt3 ("V"%char :: ?x)) with (@None (list (list ascii))).
  change (run alt4 ("V"%char :: ?x)) with (@None (list (list ascii))).
  cbv beta iota.
  unfold alt5, d4, d2, w2, wplus.
  cbn [run].
  change (strip_prefix (str "VID_") ("V"%char :: "I"%char :: "D"%char :: "_"%char :: ?x))
    with (Some x).
  cbv beta iota.
  rewrite (take_cls_app _ _ _ _ Hy); cbv beta iota.
  rewrite (take_cls_app _ _ _ _ Hmo); cbv beta iota.
  rewrite (take_cls_app _ _ _ _ Hd); cbv beta iota.
  rewrite (strip_prefix_same (str "_")); cbv beta iota.
  rewrite (take_cls_app _ _ _ _ Ht); cbv beta iota.
  rewrite (take_cls_app _ _ _ _ Ho); cbv beta iota.
  rewrite (strip_prefix_same (str ".")); cbv beta iota.
  change ((a :: ext) ++ rest) with (a :: ext ++ rest).
  match goal with
  | |- context [greedy Word ?k [] (a :: ?s)] =>
      destruct (greedy_last Word k a s [] ltac:(discriminate) Ha) as [w [s' ->]]
  end.
  now exists w.
Qed.


(** C2 (as the code has it): for a name of the video shape
    [VID_YYYYMMDD_<tag><4 digits>.<ext>] that contains ["WA"], the record
    has minute 0 and second 0, and its hour is the number the four digits
    after the tag denote; year, month and day are the digits of the date. *)
Theorem vid_hour_is_ordinal (y mo d tag ord ext rest : list ascii) :
  cls_word Digit (Exactly 4) y -> cls_word Digit (Exactly 2) mo ->
  cls_word Digit (Exactly 2) d -> cls_word Word (Exactly 2) tag ->
  cls_word Digit (Exactly 4) ord -> cls_word Word OneOrMore ext ->
  let name :=
    str "VID_" ++ y ++ mo ++ d ++ str "_" ++ tag ++ ord ++ str "." ++ ext ++ rest in
  contains (str "WA") name = true ->
  parse_filename name
  = Ok (Some (mkFileMetaData (int_of y) (int_of mo) (int_of d) (int_of ord) 0 0
                (skipn 1 (name_suffix name)))).
Proof.
  intros Hy Hmo Hd Ht Ho He name Hwa.
  destruct (vid_groups y mo d tag ord ext rest Hy Hmo Hd Ht Ho He) as [ext' Hg].
  fold name in Hg.
  rewrite (parse_vid name y mo d tag ord ext' _ Hg eq_refl Hy Hmo Hd Ho).
  now rewrite Hwa.
Qed.

Lemma vid_hour_is_ordinal_witness :
  parse_filename (str "VID_20210101_WA1234.mp4")
  = Ok (Some (mkFileMetaData 2021 1 1 1234 0 0 (str "mp4"))).
Proof.
  apply (vid_hour_is_ordinal (str "2021") (str "01") (str "01") (str "WA")
           (str "1234") (str "mp4") []);
    try (split; [reflexivity | simpl; lia]); reflexivity.
Defined.

(** C2 (as stated) fails on [VID_20210101_WA1234.mp4]: the record the
    parser returns does not have hour, minute and second all 0. *)
Lemma vid_hour_not_zero :
  ~ (exists r, parse_filename (str "VID_20210101_WA1234.mp4") = Ok (Some r)
               /\ hour r = 0%Z /\ minute r = 0%Z /\ second r = 0%Z).
Proof.
  intros [r [Hr [Hh _]]].
  change (parse_filename (str "VID_20210101_WA1234.mp4"))
    with (Ok (Some (mkFileMetaData 2021 1 1 1234 0 0 (str "mp4")))) in Hr.
  injection Hr as <-. discriminate.
Qed.

(** X14: without ["WA"] in the name and with a tag of two digits, a video
    name parses to a time of day: the tag is the hour and the four digits
    after it are minute and second. *)
Lemma vid_digit_tag_is_time (y mo d tag ord ext rest : list ascii) :
  cls_word Digit (Exactly 4) y -> cls_word Digit (Exactly 2) mo ->
  cls_word Digit (Exactly 2) d -> cls_word Digit (Exactly 2) tag ->
  cls_word Digit (Exactly 4) ord -> cls_word Word OneOrMore ext ->
  let name :=
    str "VID_" ++ y ++ mo ++ d ++ str "_" ++ tag ++ ord ++ str "." ++ ext ++ rest in
  contains (str "WA") name = false ->
  parse_filename name
  = Ok (Some (mkFileMetaData (int_of y) (int_of mo) (int_of d) (int_of tag)
                (int_of (firstn 2 ord)) (int_of (skipn 2 ord))
                (skipn 1 (name_suffix name)))).
Proof.
  intros Hy Hmo Hd Ht Ho He name Hwa.
  assert (Ht' : cls_word Word (Exactly 2) tag).
  { destruct Ht as [Hc Hl]. split; [|exact Hl].
    rewrite forallb_forall in *. intros a Ha. specialize (Hc a Ha).
    unfold in_cls, is_digit, is_word in *. now rewrite Hc. }
  destruct (vid_groups y mo d tag ord ext rest Hy Hmo Hd Ht' Ho He) as [ext' Hg].
  fold name in Hg.
  rewrite (parse_vid name y mo d tag ord ext' _ Hg eq_refl Hy Hmo Hd Ho).
  rewrite Hwa, (py_int_digit_word _ _ Ht). reflexivity.
Qed.

(** ** The batch loop *)

Lemma for_each_raises {A} (body : A -> M unit) (pre : list A) (x : A) (post : list A)
  (w w1 w2 : world) (e : exn) :
  for_each body pre w = (Ok tt, w1) ->
  body x w1 = (Raise e, w2) ->
  for_each body (pre ++ x :: post) w = (Raise e, w2).
Proof.
  revert w. induction pre as [|y pre IH]; intros w Hpre Hx.
  - simpl in Hpre. injection Hpre as ->. simpl. unfold bind. now rewrite Hx.
  - simpl in *. unfold bind in *.
    destruct (body y w) as [[[]|e'] w'] eqn:E; [|discriminate].
    now apply IH.
Qed.

(** C5 (as the code has it): when the planner runs out of names for one
    file, [rename_files] prints the message on the error stream and returns
    1 at once; the world it leaves is the one reached after the entries
    listed before that file, so the entries listed after it are neither
    examined nor renamed. *)
Theorem exhaustion_ends_the_run (directory : Path) (args : Args) (w w1 : world)
  (pre : list Path) (filepath : Path) (post : list Path) (metadata : FileMetaData) :
  iterdir directory w = (Ok (pre ++ filepath :: post), w) ->
  for_each (process_entry directory args) pre w = (Ok tt, w1) ->
  is_file filepath w1 = (Ok true, w1) ->
  parse_filename (path_name filepath) = Ok (Some metadata) ->
  get_unique_filepath directory metadata w1
  = (Raise (Exception_ (str "Could not find a unique filename")), w1) ->
  rename_files directory args w
  = (1%Z, print_err (str "Could not find a unique filename") w1).
Proof.
  intros Hls Hpre Hfile Hparse Hplan.
  unfold rename_files, bind. rewrite Hls.
  rewrite (for_each_raises _ pre filepath post w w1 w1
             (Exception_ (str "Could not find a unique filename")) Hpre).
  - reflexivity.
  - unfold process_entry, bind, lift. rewrite Hfile. cbn [negb].
    rewrite Hparse, Hplan. reflexivity.
Qed.

Lemma exhaustion_ends_the_run_witness :
  rename_files photos rename_all (quiet busy)
  = (1%Z,
     print_err (str "Could not find a unique filename")
       (snd (for_each (process_entry photos rename_all) [early_file] (quiet busy)))).
Proof.
  apply (exhaustion_ends_the_run photos rename_all (quiet busy)
           (snd (for_each (process_entry photos rename_all) [early_file] (quiet busy)))
           [early_file] stuck_file (map fst (crowded 99) ++ [late_file])
           scenario_record);
    vm_compute; reflexivity.
Defined.

(** C5 (as stated) fails on the directory [busy]: the planner runs out of
    names for the second entry; the last entry is a screenshot that the
    loop body would rename; yet [rename_files] returns 1 with the
    screenshot still under its old name and its target still free. *)
Lemma exhaustion_skips_later_files :
  let w1 := snd (for_each (process_entry photos rename_all) [early_file] (quiet busy)) in
  fst (get_unique_filepath photos scenario_record w1)
  = Raise (Exception_ (str "Could not find a unique filename"))
  /\ occupied (fs (snd (process_entry photos rename_all late_file w1))) late_target = true
  /\ fst (rename_files photos rename_all (quiet busy)) = 1%Z
  /\ occupied (fs (snd (rename_files photos rename_all (quiet busy)))) late_file = true
  /\ occupied (fs (snd (rename_files photos rename_all (quiet busy)))) late_target = false.
Proof. vm_compute. repeat split; reflexivity. Qed.

(** ** The names the planner probes *)

Lemma canonical_name_split (m : FileMetaData) :
  canonical_name m = timestamp_text m ++ str "." ++ extension m.
Proof. unfold canonical_name, timestamp_text. now rewrite <- !app_assoc. Qed.

Lemma rfind_dot_none (e : list ascii) : no_dot e = true -> rfind_dot e = None.
Proof.
  unfold no_dot. induction e as [|a e IH]; simpl; [reflexivity|].
  intros H. apply andb_true_iff in H. destruct H as [Ha He].
  rewrite (IH He). apply negb_true_iff in Ha. now rewrite Ha.
Qed.

Lemma rfind_dot_last (t e : list ascii) :
  no_dot e = true -> rfind_dot (t ++ str "." ++ e) = Some (length t).
Proof.
  intros He. induction t as [|a t IH].
  - cbn [app str list_ascii_of_string rfind_dot length].
    now rewrite (rfind_dot_none e He).
  - cbn [app rfind_dot length]. now rewrite IH.
Qed.

Lemma firstn_length_app {A} (t x : list A) : firstn (length t) (t ++ x) = t.
Proof. induction t as [|a t IH]; simpl; [now destruct x | now rewrite IH]. Qed.

Lemma skipn_length_app {A} (t x : list A) : skipn (length t) (t ++ x) = x.
Proof. induction t as [|a t IH]; simpl; [reflexivity | exact IH]. Qed.

Lemma timestamp_text_nonempty (m : FileMetaData) : timestamp_text m <> [].
Proof.
  unfold timestamp_text. destruct (format_d_head 4 (year m)) as [c [r [-> _]]].
  discriminate.
Qed.

(** For an extension that is not empty and has no dot and no separator,
    the variant [_i] is the canonical name with [_i] put before the dot of
    the extension. *)
Lemma variant_shape (directory : Path) (m : FileMetaData) (i : Z) :
  extension m <> [] -> no_dot (extension m) = true -> no_slash (extension m) = true ->
  variant (get_filename_format directory m) i
  = directory ++ [timestamp_text m ++ str "_" ++ str_of_Z i ++ str "." ++ extension m].
Proof.
  intros Hne Hnd Hns.
  rewrite (get_filename_format_single directory m Hns).
  unfold variant, suffixed_name, stem, suffix.
  rewrite path_name_snoc, removelast_last. do 2 f_equal.
  unfold name_stem, name_suffix.
  rewrite canonical_name_split, (rfind_dot_last _ _ Hnd).
  pose proof (timestamp_text_nonempty m) as Ht.
  assert (Hlen : (0 <? length (timestamp_text m))
                 && (length (timestamp_text m)
                     <? length (timestamp_text m ++ str "." ++ extension m) - 1) = true).
  { apply andb_true_iff. split.
    - apply Nat.ltb_lt. destruct (timestamp_text m); [congruence | simpl; lia].
    - apply Nat.ltb_lt. rewrite !length_app.
      destruct (extension m); [congruence | simpl; lia]. }
  rewrite Hlen, firstn_length_app, skipn_length_app. reflexivity.
Qed.

Example variant_of_scenario :
  variant (get_filename_format photos scenario_record) 7
  = [str "photos"; str "2021-01-01_01-01-01_7.jpg"].
Proof. reflexivity. Qed.

Example plan_scenario_B :
  fst (get_unique_filepath photos scenario_record
         (quiet [(get_filename_format photos scenario_record, RegularFile)]))
  = Ok [str "photos"; str "2021-01-01_01-01-01_1.jpg"].
Proof. reflexivity. Qed.

(** ** The matcher finds every match *)

Lemma greedy_complete {A} (c : cls) (k : list ascii -> list ascii -> option A)
  (w s' : list ascii) :
  forall acc, w <> [] -> forallb (in_cls c) w = true ->
              k (acc ++ w) s' <> None -> greedy c k acc (w ++ s') <> None.
Proof.
  induction w as [|a w IH]; intros acc Hne Hw Hk; [congruence|].
  simpl in Hw. apply andb_true_iff in Hw. destruct Hw as [Ha Hw].
  cbn [app greedy]. rewrite Ha.
  destruct w as [|b w].
  - simpl. destruct (greedy c k (acc ++ [a]) s'); [discriminate | exact Hk].
  - assert (Hin : greedy c k (acc ++ [a]) ((b :: w) ++ s') <> None).
    { apply IH; [discriminate | exact Hw |]. now rewrite <- app_assoc. }
    destruct (greedy c k (acc ++ [a]) ((b :: w) ++ s')); [discriminate | congruence].
Qed.

Lemma run_complete (atoms : list atom) (s : list ascii) (caps : list (list ascii)) :
  seq_matches atoms s caps -> run atoms s <> None.
Proof.
  induction 1 as [s|l atoms s caps Hm IH|c q atoms w s caps [Hw Hl] Hm IH]; cbn [run].
  - discriminate.
  - now rewrite strip_prefix_same.
  - destruct q as [n|].
    + rewrite (take_cls_app c n w s (conj Hw Hl)).
      destruct (run atoms s); [discriminate | congruence].
    + apply (greedy_complete c _ w s []).
      * intros ->. simpl in Hl. lia.
      * exact Hw.
      * simpl. destruct (run atoms s); [discriminate | congruence].
Qed.


Lemma parse_filename_groups (name : list ascii) :
  parse_filename name = Ok None <-> re_match_groups name = None.
Proof.
  unfold parse_filename. destruct (re_match_groups name) as [caps|].
  - split; [|discriminate].
    destruct (unpack3_int (firstn 3 caps)) as [[[y mo] d]|e]; simpl; [|discriminate].
    match goal with
    | |- rbind ?hms _ = _ -> _ => destruct hms as [[[h mi] se]|e]
    end; simpl; discriminate.
  - split; reflexivity.
Qed.



(** ** The sixth alternative is never the one that matches *)

Lemma alt6_is_alt3 (s : list ascii) (caps : list (list ascii)) :
  seq_matches alt6 s caps -> seq_matches alt3 s caps.
Proof.
  intros H. unfold alt6, alt3, d4, d2, d3, dplus, wplus in *.
  repeat match goal with
         | H : seq_matches (_ :: _) _ _ |- _ => inversion H; subst; clear H
         | H : seq_matches [] _ _ |- _ => inversion H; subst; clear H
         end.
  repeat first [apply SM_lit | apply SM_grp | apply SM_nil]; try assumption.
  match goal with
  | H : cls_word Digit (Exactly 3) ?w |- cls_word Digit OneOrMore ?w =>
      destruct H as [Hw Hl]; split; [exact Hw | rewrite Hl; repeat constructor]
  end.
Qed.

(** X3: removing the sixth alternative (the fixed-length [PXL_] form) from
    the pattern changes no result: whatever it matches, the third
    alternative has matched before it. *)
Theorem sixth_alternative_is_dead (name : list ascii) :
  re_match_groups name
  = first_match [alt1; alt2; alt3; alt4; alt5; alt7; alt8; alt9] name.
Proof.
  unfold re_match_groups, pattern. cbn [first_match].
  destruct (run alt1 name); [reflexivity|].
  destruct (run alt2 name); [reflexivity|].
  destruct (run alt3 name) eqn:E3; [reflexivity|].
  destruct (run alt4 name); [reflexivity|].
  destruct (run alt5 name); [reflexivity|].
  destruct (run alt6 name) as [caps|] eqn:E6; [|reflexivity].
  apply run_sound, alt6_is_alt3, run_complete in E6. contradiction.
Qed.

(** ** Running one alternative on a name of known layout *)

Lemma run_lit_ok (l : string) (rest : list atom) (s : list ascii) :
  run (Lit l :: rest) (str l ++ s) = run rest s.
Proof. cbn [run]. now rewrite strip_prefix_same. Qed.

Lemma run_exact_ok (c : cls) (n : nat) (rest : list atom) (w s : list ascii) :
  cls_word c (Exactly n) w ->
  run (Grp c (Exactly n) :: rest) (w ++ s) = option_map (cons w) (run rest s).
Proof. intros H. cbn [run]. now rewrite (take_cls_app c n w s H). Qed.

Lemma greedy_stop {A} (c : cls) (k : list ascii -> list ascii -> option A)
  (b : ascii) (x w : list ascii) :
  in_cls c b = false ->
  forall acc, w <> [] -> forallb (in_cls c) w = true ->
              k (acc ++ w) (b :: x) <> None ->
              greedy c k acc (w ++ b :: x) = k (acc ++ w) (b :: x).
Proof.
  intros Hb. induction w as [|a w IH]; intros acc Hne Hw Hk; [congruence|].
  simpl in Hw. apply andb_true_iff in Hw. destruct Hw as [Ha Hw].
  cbn [app greedy]. rewrite Ha.
  destruct w as [|a' w].
  - cbn [app greedy]. now rewrite Hb.
  - rewrite (IH (acc ++ [a])); [|discriminate | exact Hw | rewrite <- app_assoc; exact Hk].
    rewrite <- app_assoc. cbn [app].
    destruct (k (acc ++ a :: a' :: w) (b :: x)); [reflexivity | congruence].
Qed.

Lemma run_plus_dot (rest : list atom) (w s : list ascii) :
  cls_word Digit OneOrMore w ->
  run rest s <> None ->
  run (Grp Digit OneOrMore :: Lit "." :: rest) (w ++ str "." ++ s)
  = option_map (cons w) (run rest s).
Proof.
  intros [Hw Hl] Hr.
  change (run (Grp Digit OneOrMore :: Lit "." :: rest) (w ++ str "." ++ s))
    with (greedy Digit (fun w0 s' => option_map (cons w0) (run (Lit "." :: rest) s'))
            [] (w ++ "."%char :: s)).
  assert (Hne : w <> []) by (intros ->; simpl in Hl; lia).
  assert (Hk : (fun w0 s' : list ascii =>
                  option_map (cons w0) (run (Lit "." :: rest) s')) ([] ++ w) ("."%char :: s)
               = option_map (cons w) (run rest s)).
  { cbn [app run]. change (strip_prefix (str ".") ("."%char :: s)) with (Some s).
    reflexivity. }
  rewrite (greedy_stop Digit
             (fun w0 s' => option_map (cons w0) (run (Lit "." :: rest) s'))
             "."%char s w eq_refl [] Hne Hw).
  - exact Hk.
  - rewrite Hk. destruct (run rest s); [discriminate | congruence].
Qed.

Lemma run_wplus (ext rest : list ascii) :
  cls_word Word OneOrMore ext ->
  exists w, run [Grp Word OneOrMore] (ext ++ rest) = Some [w].
Proof.
  intros [He Hl]. destruct ext as [|a ext]; [simpl in Hl; lia|].
  simpl in He. apply andb_true_iff in He. destruct He as [Ha _].
  change (run [Grp Word OneOrMore] ((a :: ext) ++ rest))
    with (greedy Word (fun w s' => option_map (cons w) (run [] s')) []
            (a :: ext ++ rest)).
  destruct (greedy_last Word (fun w s' => option_map (cons w) (run [] s'))
              a (ext ++ rest) [] ltac:(discriminate) Ha) as [w [s' ->]].
  now exists w.
Qed.

Lemma run_lit_digit_fail (l : string) (rest : list atom) (n : nat) (w s : list ascii) :
  cls_word Digit (Exactly (S n)) w ->
  match str l with
  | c :: _ => is_digit c = false
  | [] => False
  end ->
  run (Lit l :: rest) (w ++ s) = None.
Proof.
  intros [Hw Hl] Hc. cbn [run].
  destruct w as [|a w]; [discriminate|].
  simpl in Hw. apply andb_true_iff in Hw. destruct Hw as [Ha _].
  destruct (str l) as [|c l']; [contradiction|].
  cbn [app strip_prefix].
  destruct (Ascii.eqb_spec c a) as [->|_]; [congruence | reflexivity].
Qed.

Ltac run_steps :=
  repeat first
    [ rewrite run_lit_ok
    | rewrite run_exact_ok by assumption
    | rewrite run_plus_dot by first [assumption | congruence] ].

(** [run alt name = None], by running the alternative up to the
    character it cannot take. *)
Ltac run_fails :=
  unfold alt1, alt2, alt3, alt4, alt5, alt6, alt7, alt8, alt9,
    d4, d2, d3, w2, dplus, wplus;
  run_steps;
  first [ reflexivity
        | apply (run_lit_digit_fail _ _ 3); [assumption | reflexivity] ].

Ltac run_succeeds Hw :=
  unfold alt1, alt2, alt3, alt4, alt5, alt6, alt7, alt8, alt9,
    d4, d2, d3, w2, dplus, wplus;
  run_steps; rewrite ?Hw; cbn [option_map]; reflexivity.

Section TimedLayouts.
Variables y mo d h mi se ext rest : list ascii.
Hypothesis Hy : cls_word Digit (Exactly 4) y.
Hypothesis Hmo : cls_word Digit (Exactly 2) mo.
Hypothesis Hd : cls_word Digit (Exactly 2) d.
Hypothesis Hh : cls_word Digit (Exactly 2) h.
Hypothesis Hmi : cls_word Digit (Exactly 2) mi.
Hypothesis Hse : cls_word Digit (Exactly 2) se.
Hypothesis Hext : cls_word Word OneOrMore ext.

Lemma run_tail_ok :
  exists w, run [Lit "."; Grp Word OneOrMore] (str "." ++ ext ++ rest) = Some [w].
Proof. rewrite run_lit_ok. now apply run_wplus. Qed.

Variables n n3 : list ascii.
Hypothesis Hn : cls_word Digit OneOrMore n.
Hypothesis Hn3 : cls_word Digit (Exactly 3) n3.

(** Rewrite the alternatives that fail on the name to [None]. *)
Ltac drop_failing :=
  unfold re_match_groups, pattern; cbn [first_match];
  repeat match goal with
         | |- context [run ?alt ?nm] =>
             let E := fresh "E" in
             assert (E : run alt nm = None) by run_fails;
             rewrite E; clear E
         end.

Lemma dropbox_groups :
  exists w, re_match_groups (dropbox_name y mo d h mi se ext rest)
            = Some [y; mo; d; h; mi; se; w].
Proof.
  destruct (run_wplus ext rest Hext) as [w Hw]. exists w.
  unfold dropbox_name. drop_failing.
  match goal with
  | |- context [run alt1 ?nm] =>
      assert (E : run alt1 nm = Some [y; mo; d; h; mi; se; w]) by run_succeeds Hw
  end.
  now rewrite E.
Qed.

Lemma img_groups :
  exists w, re_match_groups (img_name y mo d h mi se n ext rest)
            = Some [y; mo; d; h; mi; se; n; w].
Proof.
  destruct (run_wplus ext rest Hext) as [w Hw]. exists w.
  unfold img_name. drop_failing.
  match goal with
  | |- context [run alt2 ?nm] =>
      assert (E : run alt2 nm = Some [y; mo; d; h; mi; se; n; w]) by run_succeeds Hw
  end.
  now rewrite E.
Qed.

Lemma pxl_groups :
  exists w, re_match_groups (pxl_name y mo d h mi se n ext rest)
            = Some [y; mo; d; h; mi; se; n; w].
Proof.
  destruct (run_wplus ext rest Hext) as [w Hw]. exists w.
  unfold pxl_name. drop_failing.
  match goal with
  | |- context [run alt3 ?nm] =>
      assert (E : run alt3 nm = Some [y; mo; d; h; mi; se; n; w]) by run_succeeds Hw
  end.
  now rewrite E.
Qed.

Lemma screenshot_groups :
  exists w, re_match_groups (screenshot_name y mo d h mi se ext rest)
            = Some [y; mo; d; h; mi; se; w].
Proof.
  destruct (run_wplus ext rest Hext) as [w Hw]. exists w.
  unfold screenshot_name. drop_failing.
  match goal with
  | |- context [run alt4 ?nm] =>
      assert (E : run alt4 nm = Some [y; mo; d; h; mi; se; w]) by run_succeeds Hw
  end.
  now rewrite E.
Qed.

Lemma img_dash_groups :
  exists w, re_match_groups (img_dash_name y mo d h mi se n3 ext rest)
            = Some [y; mo; d; h; mi; se; n3; w].
Proof.
  destruct (run_wplus ext rest Hext) as [w Hw]. exists w.
  unfold img_dash_name. drop_failing.
  match goal with
  | |- context [run alt7 ?nm] =>
      assert (E : run alt7 nm = Some [y; mo; d; h; mi; se; n3; w]) by run_succeeds Hw
  end.
  now rewrite E.
Qed.

Lemma img_dash_extra_groups :
  exists w, re_match_groups (img_dash_extra_name y mo d h mi se n3 n ext rest)
            = Some [y; mo; d; h; mi; se; n3; n; w].
Proof.
  destruct (run_wplus ext rest Hext) as [w Hw]. exists w.
  unfold img_dash_extra_name. drop_failing.
  match goal with
  | |- context [run alt8 ?nm] =>
      assert (E : run alt8 nm = Some [y; mo; d; h; mi; se; n3; n; w])
        by run_succeeds Hw
  end.
  now rewrite E.
Qed.

Lemma dropbox_numbered_groups :
  exists w, re_match_groups (dropbox_numbered_name y mo d h mi se n ext rest)
            = Some [y; mo; d; h; mi; se; n; w].
Proof.
  destruct (run_wplus ext rest Hext) as [w Hw]. exists w.
  unfold dropbox_numbered_name. drop_failing.
  match goal with
  | |- context [run alt9 ?nm] =>
      assert (E : run alt9 nm = Some [y; mo; d; h; mi; se; n; w]) by run_succeeds Hw
  end.
  now rewrite E.
Qed.

(** Every name of one of the seven layouts is matched, and its first six
    groups are the six fields. *)
Lemma timed_layout_groups (name : list ascii) :
  In name [dropbox_name y mo d h mi se ext rest;
           img_name y mo d h mi se n ext rest;
           pxl_name y mo d h mi se n ext rest;
           screenshot_name y mo d h mi se ext rest;
           img_dash_name y mo d h mi se n3 ext rest;
           img_dash_extra_name y mo d h mi se n3 n ext rest;
           dropbox_numbered_name y mo d h mi se n ext rest] ->
  exists c6 tl, re_match_groups name = Some (y :: mo :: d :: h :: mi :: se :: c6 :: tl).
Proof.
  intros [<-|[<-|[<-|[<-|[<-|[<-|[<-|[]]]]]]]].
  - destruct dropbox_groups as [w ->]. now eexists _, _.
  - destruct img_groups as [w ->]. now eexists _, _.
  - destruct pxl_groups as [w ->]. now eexists _, _.
  - destruct screenshot_groups as [w ->]. now eexists _, _.
  - destruct img_dash_groups as [w ->]. now eexists _, _.
  - destruct img_dash_extra_groups as [w ->]. now eexists _, _.
  - destruct dropbox_numbered_groups as [w ->]. now eexists _, _.
Qed.
End TimedLayouts.

(** X4: a name laid out as one of the seven forms that carry a time of day
    (text may follow the extension), with no ["WA"] anywhere in it, parses
    to the record whose year, month, day, hour, minute and second are the
    numbers written at the six field positions. *)
Theorem timed_layouts_parse_to_their_digits
  (y mo d h mi se ext rest n n3 name : list ascii) :
  cls_word Digit (Exactly 4) y -> cls_word Digit (Exactly 2) mo ->
  cls_word Digit (Exactly 2) d -> cls_word Digit (Exactly 2) h ->
  cls_word Digit (Exactly 2) mi -> cls_word Digit (Exactly 2) se ->
  cls_word Word OneOrMore ext -> cls_word Digit OneOrMore n ->
  cls_word Digit (Exactly 3) n3 ->
  In name [dropbox_name y mo d h mi se ext rest;
           img_name y mo d h mi se n ext rest;
           pxl_name y mo d h mi se n ext rest;
           screenshot_name y mo d h mi se ext rest;
           img_dash_name y mo d h mi se n3 ext rest;
           img_dash_extra_name y mo d h mi se n3 n ext rest;
           dropbox_numbered_name y mo d h mi se n ext rest] ->
  contains (str "WA") name = false ->
  parse_filename name = Ok (Some (timed_record y mo d h mi se name)).
Proof.
  intros Hy Hmo Hd Hh Hmi Hse Hext Hn Hn3 Hin Hwa.
  destruct (timed_layout_groups y mo d h mi se ext rest Hy Hmo Hd Hh Hmi Hse Hext
              n n3 Hn Hn3 name Hin) as [c6 [tl Hg]].
  rewrite (parse_timed _ _ _ _ _ _ _ _ _ Hg Hy Hmo Hd Hh Hmi Hse), Hwa.
  reflexivity.
Qed.

Lemma timed_layouts_parse_to_their_digits_witness :
  parse_filename (str "IMG_2021-12-31-23-59-58-123-7.jpeg")
  = Ok (Some (mkFileMetaData 2021 12 31 23 59 58 (str "jpeg"))).
Proof.
  apply (timed_layouts_parse_to_their_digits (str "2021") (str "12") (str "31")
           (str "23") (str "59") (str "58") (str "jpeg") [] (str "7") (str "123")
           (str "IMG_2021-12-31-23-59-58-123-7.jpeg"));
    try (split; [reflexivity | simpl; lia]);
    try reflexivity.
  simpl. tauto.
Defined.

(** ** What the planner returns *)

Lemma probe_result (directory : Path) (metadata : FileMetaData) (w : world)
  (len a : nat) (r : result Path) (w' : world) :
  let base := get_filename_format directory metadata in
  probe base (map Z.of_nat (seq a len)) w = (r, w') ->
  match r with
  | Ok p =>
      exists i, (a <= i < a + len)%nat
                /\ p = variant base (Z.of_nat i)
                /\ occupied (fs w) p = false
                /\ forall j, (a <= j < i)%nat ->
                             occupied (fs w) (variant base (Z.of_nat j)) = true
  | Raise e =>
      e = Exception_ (str "Could not find a unique filename")
      /\ forall j, (a <= j < a + len)%nat ->
                   occupied (fs w) (variant base (Z.of_nat j)) = true
  end.
Proof.
  intros base. revert a. induction len as [|len IH]; intros a H.
  - simpl in H. unfold raise in H. injection H as <- <-. split; [reflexivity | lia].
  - cbn [seq map] in H. unfold base in H. rewrite probe_step in H. fold base in H.
    destruct (occupied (fs w) (variant base (Z.of_nat a))) eqn:E.
    + specialize (IH (S a) H). destruct r as [p|e].
      * destruct IH as [i [Hi [Hp [Hfree Hbefore]]]].
        exists i. repeat split; try assumption; try lia.
        intros j Hj. destruct (Nat.eq_dec j a) as [->|]; [exact E | apply Hbefore; lia].
      * destruct IH as [He Hall]. split; [exact He|].
        intros j Hj. destruct (Nat.eq_dec j a) as [->|]; [exact E | apply Hall; lia].
    + injection H as <- <-. exists a. repeat split; try lia. exact E.
Qed.

(** X5: a path the planner returns is the first free variant: it is
    [_i] for some i from 1 to 99, nothing occupies it, and every variant
    with a smaller number is occupied. *)
Theorem planned_path_is_first_free (directory : Path) (metadata : FileMetaData)
  (w w' : world) (p : Path) :
  get_unique_filepath directory metadata w = (Ok p, w') ->
  exists i, (1 <= i <= 99)%nat
            /\ p = variant (get_filename_format directory metadata) (Z.of_nat i)
            /\ occupied (fs w) p = false
            /\ forall j, (1 <= j < i)%nat ->
                         occupied (fs w)
                           (variant (get_filename_format directory metadata)
                              (Z.of_nat j)) = true.
Proof.
  intros H. unfold get_unique_filepath, py_range in H.
  apply probe_result in H. destruct H as [i [Hi H]].
  exists i. split; [simpl in Hi; lia | exact H].
Qed.

Lemma planned_path_is_first_free_witness :
  exists i, (1 <= i <= 99)%nat
            /\ [str "photos"; str "2021-01-01_01-01-01_3.jpg"]
               = variant (get_filename_format photos scenario_record) (Z.of_nat i)
            /\ occupied (fs (quiet (crowded 2)))
                 [str "photos"; str "2021-01-01_01-01-01_3.jpg"] = false
            /\ forall j, (1 <= j < i)%nat ->
                         occupied (fs (quiet (crowded 2)))
                           (variant (get_filename_format photos scenario_record)
                              (Z.of_nat j)) = true.
Proof.
  apply (planned_path_is_first_free photos scenario_record (quiet (crowded 2))
           (quiet (crowded 2))).
  vm_compute. reflexivity.
Defined.



(** X7: for a record whose extension is not empty and has no dot and no
    separator, a path the planner returns lies directly in the directory
    and is named [<timestamp>_<i>.<ext>] with i from 1 to 99. *)
Theorem planned_path_shape (directory : Path) (metadata : FileMetaData)
  (w w' : world) (p : Path) :
  extension metadata <> [] ->
  no_dot (extension metadata) = true ->
  no_slash (extension metadata) = true ->
  get_unique_filepath directory metadata w = (Ok p, w') ->
  exists i, (1 <= i <= 99)%nat
            /\ p = directory ++ [timestamp_text metadata ++ str "_"
                                 ++ str_of_Z (Z.of_nat i) ++ str "."
                                 ++ extension metadata].
Proof.
  intros Hne Hnd Hns H.
  unfold get_unique_filepath, py_range in H.
  apply probe_result in H. destruct H as [i [Hi [Hp _]]].
  exists i. split; [simpl in Hi; lia|].
  rewrite Hp. now apply variant_shape.
Qed.

Lemma planned_path_shape_witness :
  exists i, (1 <= i <= 99)%nat
            /\ [str "photos"; str "2021-01-01_01-01-01_3.jpg"]
               = photos ++ [timestamp_text scenario_record ++ str "_"
                            ++ str_of_Z (Z.of_nat i) ++ str "."
                            ++ extension scenario_record].
Proof.
  apply (planned_path_shape photos scenario_record (quiet (crowded 2))
           (quiet (crowded 2))).
  - discriminate.
  - reflexivity.
  - reflexivity.
  - vm_compute. reflexivity.
Defined.

(** ** Invariants of the batch loop *)

Lemma process_entry_cases (directory : Path) (args : Args) (filepath : Path)
  (w : world) :
  process_entry directory args filepath w = (Ok tt, w)
  \/ (exists e, process_entry directory args filepath w = (Raise e, w))
  \/ (exists metadata p,
        parse_filename (path_name filepath) = Ok (Some metadata)
        /\ get_unique_filepath directory metadata w = (Ok p, w)
        /\ process_entry directory args filepath w = after_plan args filepath p w).
Proof.
  remember (process_entry directory args filepath w) as res eqn:H.
  unfold process_entry, bind at 1, is_file in H.
  destruct (find _ (fs w)) as [[q [|]]|]; cbn [negb] in H; try (left; exact H).
  unfold bind at 1, lift in H.
  destruct (parse_filename (path_name filepath)) as [[metadata|]|e].
  - pose proof (get_unique_filepath_keeps_world directory metadata w) as Hw.
    unfold bind at 1 in H.
    destruct (get_unique_filepath directory metadata w) as [[p|e] w1] eqn:E;
      simpl in Hw; subst w1.
    + right. right. exists metadata, p. split; [reflexivity|]. split; [exact E|].
      exact H.
    + right. left. now exists e.
  - left. exact H.
  - right. left. now exists e.
Qed.

Section LoopInvariant.
Variable R : world -> world -> Prop.
Hypothesis R_refl : forall w, R w w.
Hypothesis R_trans : forall a b c, R a b -> R b c -> R a c.

Lemma for_each_invariant {A} (body : A -> M unit) (xs : list A) :
  (forall x w, R w (snd (body x w))) ->
  forall w, R w (snd (for_each body xs w)).
Proof.
  intros Hbody. induction xs as [|x xs IH]; intros w; simpl; [apply R_refl|].
  unfold bind. specialize (Hbody x w).
  destruct (body x w) as [[[]|e] w1]; simpl in *; [|exact Hbody].
  eapply R_trans; [exact Hbody | apply IH].
Qed.

Hypothesis R_stderr : forall w line, R w (print_err line w).

Lemma rename_files_invariant (directory : Path) (args : Args) :
  (forall filepath p w,
      occupied (fs w) p = false -> R w (snd (after_plan args filepath p w))) ->
  forall w, R w (snd (rename_files directory args w)).
Proof.
  intros Hstep w.
  assert (Hbody : forall filepath w0,
             R w0 (snd (process_entry directory args filepath w0))).
  { intros filepath w0.
    destruct (process_entry_cases directory args filepath w0)
      as [-> | [[e ->] | (metadata & p & _ & Hplan & ->)]];
      simpl; try apply R_refl.
    apply Hstep.
    unfold get_unique_filepath, py_range in Hplan.
    apply probe_result in Hplan. now destruct Hplan as [i [_ [_ [Hfree _]]]]. }
  unfold rename_files, bind at 1, iterdir.
  match goal with
  | |- context [for_each ?b ?xs w] =>
      pose proof (for_each_invariant b xs Hbody w) as Hloop;
      destruct (for_each b xs w) as [[[]|e] w1]
  end; simpl in *.
  - exact Hloop.
  - eapply R_trans; [exact Hloop | apply R_stderr].
Qed.
End LoopInvariant.

Ltac unfold_after_plan :=
  unfold after_plan, when, confirmed, bind, print, input, rename_path, ret.

(** X8: without [--rename] the loop is a dry run: the filesystem and the
    unread input are the same after [rename_files] as before. *)
Theorem dry_run_changes_nothing (directory : Path) (args : Args) (w : world) :
  rename args = false ->
  fs (snd (rename_files directory args w)) = fs w
  /\ stdin (snd (rename_files directory args w)) = stdin w.
Proof.
  intros Hdry.
  apply (rename_files_invariant (fun a b => fs b = fs a /\ stdin b = stdin a)).
  - auto.
  - intros a b c [H1 H2] [H3 H4]. split; congruence.
  - intros w0 line. auto.
  - intros filepath p w0 _. unfold_after_plan. rewrite Hdry.
    destruct (verbose args); simpl; auto.
Qed.

Lemma dry_run_changes_nothing_witness :
  fs (snd (rename_files photos (mkArgs true false false) (quiet busy))) = fs (quiet busy)
  /\ stdin (snd (rename_files photos (mkArgs true false false) (quiet busy)))
     = stdin (quiet busy).
Proof.
  apply (dry_run_changes_nothing photos (mkArgs true false false) (quiet busy)).
  reflexivity.
Defined.

(** X9: with [--yes] nothing is ever read from the input. *)
Theorem yes_reads_no_input (directory : Path) (args : Args) (w : world) :
  yes args = true ->
  stdin (snd (rename_files directory args w)) = stdin w.
Proof.
  intros Hyes.
  apply (rename_files_invariant (fun a b => stdin b = stdin a)).
  - auto.
  - intros a b c H1 H2. congruence.
  - intros w0 line. auto.
  - intros filepath p w0 _. unfold_after_plan. rewrite Hyes.
    destruct (verbose args), (rename args); simpl; auto.
Qed.

Lemma yes_reads_no_input_witness :
  stdin (snd (rename_files photos rename_all (mkWorld busy [str "n"; str "y"] [] [])))
  = [str "n"; str "y"].
Proof.
  apply (yes_reads_no_input photos rename_all (mkWorld busy [str "n"; str "y"] [] [])).
  reflexivity.
Defined.

Lemma occupied_false (f : filesystem) (p : Path) :
  occupied f p = false -> forall e, In e f -> path_eqb (fst e) p = false.
Proof.
  unfold occupied. intros H e He.
  destruct (path_eqb (fst e) p) eqn:E; [|reflexivity].
  assert (existsb (fun e0 => path_eqb (fst e0) p) f = true); [|congruence].
  apply existsb_exists. now exists e.
Qed.



(** X11: when every entry of the directory is either not a regular file or
    has a name the parser does not match, [rename_files] returns 0 and
    leaves the world as it is: nothing is printed, read or renamed. *)
Theorem unmatched_entries_are_skipped (directory : Path) (args : Args) (w : world)
  (entries : list Path) :
  iterdir directory w = (Ok entries, w) ->
  (forall p, In p entries ->
             is_file p w = (Ok false, w) \/ parse_filename (path_name p) = Ok None) ->
  rename_files directory args w = (0%Z, w).
Proof.
  intros Hls Hskip. unfold rename_files, bind at 1. rewrite Hls.
  assert (Hloop : for_each (process_entry directory args) entries w = (Ok tt, w)).
  { clear Hls. induction entries as [|p entries IH]; [reflexivity|].
    cbn [for_each]. unfold bind at 1.
    assert (Hp : process_entry directory args p w = (Ok tt, w)).
    { unfold process_entry, bind at 1.
      destruct (Hskip p ltac:(now left)) as [Hf|Hn].
      - rewrite Hf. reflexivity.
      - destruct (is_file p w) as [[[|]|e] w1] eqn:Ef;
          unfold is_file in Ef; injection Ef as Ef <-; try discriminate.
        + cbn [negb]. unfold bind, lift. now rewrite Hn.
        + reflexivity. }
    rewrite Hp. apply IH. intros q Hq. apply Hskip. now right. }
  now rewrite Hloop.
Qed.

Lemma unmatched_entries_are_skipped_witness :
  rename_files photos rename_all
    (quiet [(photos ++ [str "notes.txt"], RegularFile);
            (photos ++ [str "2021-01-01 01.01.01.jpg"], Directory)])
  = (0%Z,
     quiet [(photos ++ [str "notes.txt"], RegularFile);
            (photos ++ [str "2021-01-01 01.01.01.jpg"], Directory)]).
Proof.
  apply (unmatched_entries_are_skipped photos rename_all _
           [photos ++ [str "notes.txt"]; photos ++ [str "2021-01-01 01.01.01.jpg"]]).
  - reflexivity.
  - intros p [<-|[<-|[]]]; [right | left]; reflexivity.
Defined.

(** X12: when confirmation is asked ([--yes] absent) and no line of the
    input is a yes (["y"] in either case), nothing is renamed. *)
Theorem declined_renames_nothing (directory : Path) (args : Args) (w : world) :
  yes args = false ->
  Forall (fun line => declines line = true) (stdin w) ->
  fs (snd (rename_files directory args w)) = fs w.
Proof.
  intros Hask Hno.
  refine (proj1 (rename_files_invariant
                   (fun a b => Forall (fun line => declines line = true) (stdin a) ->
                               fs b = fs a
                               /\ Forall (fun line => declines line = true) (stdin b))
                   _ _ _ directory args _ w Hno)).
  - auto.
  - intros a b c H1 H2 Ha. destruct (H1 Ha) as [Hf Hb]. destruct (H2 Hb) as [Hf' Hc].
    split; [congruence | exact Hc].
  - intros w0 line Hw0. auto.
  - intros filepath p w0 _ Hw0. unfold_after_plan. rewrite Hask.
    destruct (verbose args), (rename args); simpl; auto;
      destruct (stdin w0) as [|line rest]; simpl; auto;
      inversion Hw0 as [|? ? Hline Hrest]; subst;
      unfold declines in Hline; apply negb_true_iff in Hline;
      change (str "y") with ["y"%char] in Hline; rewrite Hline;
      simpl; auto.
Qed.

Lemma declined_renames_nothing_witness :
  fs (snd (rename_files photos (mkArgs false true false)
             (mkWorld busy [str "n"; str ""; str "yes"] [] [])))
  = busy.
Proof.
  apply (declined_renames_nothing photos (mkArgs false true false)
           (mkWorld busy [str "n"; str ""; str "yes"] [] [])).
  - reflexivity.
  - repeat constructor.
Defined.

(** ** Names the planner produces *)

Ltac rewrite_failing :=
  unfold re_match_groups, pattern; cbn [first_match];
  repeat match goal with
         | |- context [run ?alt ?nm] =>
             let E := fresh "E" in
             assert (E : run alt nm = None) by run_fails;
             rewrite E; clear E
         end.

(** A date followed by an underscore fits none of the nine alternatives. *)
Lemma underscore_after_date_unmatched (y mo d tail : list ascii) :
  cls_word Digit (Exactly 4) y -> cls_word Digit (Exactly 2) mo ->
  cls_word Digit (Exactly 2) d ->
  re_match_groups (y ++ str "-" ++ mo ++ str "-" ++ d ++ str "_" ++ tail) = None.
Proof. intros Hy Hmo Hd. rewrite_failing. reflexivity. Qed.

Lemma rfind_dot_ge (t e : list ascii) :
  exists i, rfind_dot (t ++ str "." ++ e) = Some i /\ (length t <= i)%nat.
Proof.
  induction t as [|a t [i [Hi Hle]]].
  - cbn [app str list_ascii_of_string rfind_dot].
    destruct (rfind_dot e) as [j|]; eexists; split; try reflexivity; simpl; lia.
  - cbn [app rfind_dot]. rewrite Hi. exists (S i). split; [reflexivity | simpl; lia].
Qed.

Lemma name_stem_keeps_timestamp (t e : list ascii) :
  exists x, name_stem (t ++ str "." ++ e) = t ++ x.
Proof.
  unfold name_stem. destruct (rfind_dot_ge t e) as [i [-> Hle]].
  destruct ((0 <? i) && (i <? length (t ++ str "." ++ e) - 1)).
  - rewrite firstn_app, (firstn_all2 t) by exact Hle. now eexists.
  - now eexists.
Qed.

Lemma padded_is_digit_word (w : nat) (z : Z) (s : list ascii) :
  padded w z s -> cls_word Digit (Exactly w) s.
Proof. intros [Hl [Hd _]]. split; assumption. Qed.

(** X13: the names the planner produces are not matched by the parser: for
    a record of the data model's domain, neither the canonical name nor any
    variant [_i] of it parses, so a later run leaves renamed files alone. *)
Theorem planned_names_are_not_matched (directory : Path) (m : FileMetaData) (i : Z) :
  in_domain m = true ->
  parse_filename (canonical_name m) = Ok None
  /\ parse_filename (path_name (variant (get_filename_format directory m) i)) = Ok None.
Proof.
  intros Hdom.
  destruct (in_domain_ranges m Hdom) as [[Hy [Hmo [Hd _]]] Hns].
  pose proof (padded_is_digit_word _ _ _ (padded_format_d 3 _ Hy)) as Wy.
  pose proof (padded_is_digit_word _ _ _ (padded_format_d 1 _ Hmo)) as Wmo.
  pose proof (padded_is_digit_word _ _ _ (padded_format_d 1 _ Hd)) as Wd.
  split; apply parse_filename_groups.
  - unfold canonical_name. now apply underscore_after_date_unmatched.
  - unfold variant. rewrite path_name_snoc. unfold suffixed_name, stem.
    rewrite (get_filename_format_single directory m Hns), path_name_snoc.
    rewrite canonical_name_split.
    destruct (name_stem_keeps_timestamp (timestamp_text m) (extension m)) as [x ->].
    unfold timestamp_text. rewrite <- !app_assoc.
    now apply underscore_after_date_unmatched.
Qed.

Lemma planned_names_are_not_matched_witness :
  parse_filename (canonical_name scenario_record) = Ok None
  /\ parse_filename
       (path_name (variant (get_filename_format photos scenario_record) 1)) = Ok None.
Proof.
  apply (planned_names_are_not_matched photos scenario_record 1). reflexivity.
Defined.

(** ** More on the video layout and on the extension *)

Lemma vid_digit_tag_is_time_witness :
  parse_filename (str "VID_20210101_235958.mp4")
  = Ok (Some (mkFileMetaData 2021 1 1 23 59 58 (str "mp4"))).
Proof.
  apply (vid_digit_tag_is_time (str "2021") (str "01") (str "01") (str "23")
           (str "5958") (str "mp4") []);
    try (split; [reflexivity | simpl; lia]); reflexivity.
Defined.





(** ** What a confirmed rename does *)

Lemma filter_all {A} (f : A -> bool) (l : list A) :
  (forall x, In x l -> f x = true) -> filter f l = l.
Proof.
  induction l as [|a l IH]; intros H; [reflexivity|].
  simpl. rewrite (H a) by now left. f_equal. apply IH. intros x Hx. apply H. now right.
Qed.

Lemma path_eqb_neq (p q : Path) : p <> q -> path_eqb p q = false.
Proof.
  intros H. destruct (path_eqb p q) eqn:E; [|reflexivity].
  apply path_eqb_eq in E. contradiction.
Qed.

Section Moved.
Variables src dst : Path.
Variable f : filesystem.
Hypothesis dst_free : occupied f dst = false.
Hypothesis src_not_dst : src <> dst.

Let move (e : Path * entry_kind) : Path * entry_kind :=
  if path_eqb (fst e) src then (dst, snd e) else e.

Lemma moved_filter :
  filter (fun e => path_eqb (fst e) src || negb (path_eqb (fst e) dst)) f = f.
Proof.
  apply filter_all. intros e He.
  rewrite (occupied_false f dst dst_free e He). apply orb_true_r.
Qed.

Lemma moved_source_free : occupied (map move f) src = false.
Proof.
  unfold occupied. clear dst_free. induction f as [|e l IH]; [reflexivity|].
  cbn [map existsb]. rewrite IH, orb_false_r. unfold move.
  destruct (path_eqb (fst e) src) eqn:E; cbn [fst]; [|exact E].
  apply path_eqb_neq. congruence.
Qed.

Lemma moved_target_found :
  find (fun e => path_eqb (fst e) dst) (map move f)
  = option_map move (find (fun e => path_eqb (fst e) src) f).
Proof.
  pose proof (occupied_false f dst dst_free) as Hall. clear dst_free.
  induction f as [|e l IH]; [reflexivity|].
  cbn [map find]. unfold move at 1.
  destruct (path_eqb (fst e) src) eqn:E; cbn [fst].
  - assert (Hd : path_eqb dst dst = true) by now apply path_eqb_eq.
    rewrite Hd. cbn [option_map]. unfold move. now rewrite E.
  - rewrite (Hall e) by now left. apply IH. intros e' He'. apply Hall. now right.
Qed.

Lemma moved_others (q : Path) :
  q <> src -> q <> dst -> occupied (map move f) q = occupied f q.
Proof.
  intros Hs Hd. unfold occupied. clear dst_free.
  induction f as [|e l IH]; [reflexivity|].
  cbn [map existsb]. rewrite IH. f_equal. unfold move.
  destruct (path_eqb (fst e) src) eqn:E; cbn [fst]; [|reflexivity].
  apply path_eqb_eq in E. rewrite E.
  rewrite (path_eqb_neq src q) by congruence.
  apply path_eqb_neq. congruence.
Qed.
End Moved.

(** X16: with [--rename] and [--yes], an entry that is a regular file,
    whose name parses and for which the planner answers [p], is moved to
    [p]: afterwards the old path is free, [p] is a regular file, and the
    occupancy of every other path is as before. *)
Theorem confirmed_entry_is_moved (directory : Path) (args : Args) (filepath : Path)
  (w : world) (metadata : FileMetaData) (p : Path) :
  is_file filepath w = (Ok true, w) ->
  parse_filename (path_name filepath) = Ok (Some metadata) ->
  get_unique_filepath directory metadata w = (Ok p, w) ->
  rename args = true ->
  yes args = true ->
  fst (process_entry directory args filepath w) = Ok tt
  /\ occupied (fs (snd (process_entry directory args filepath w))) filepath = false
  /\ fst (is_file p (snd (process_entry directory args filepath w))) = Ok true
  /\ forall q, q <> filepath -> q <> p ->
               occupied (fs (snd (process_entry directory args filepath w))) q
               = occupied (fs w) q.
Proof.
  intros Hfile Hparse Hplan Hr Hy.
  assert (Hfree : occupied (fs w) p = false).
  { unfold get_unique_filepath, py_range in Hplan. apply probe_result in Hplan.
    now destruct Hplan as [i [_ [_ [Hfree _]]]]. }
  assert (Hfound : find (fun e => path_eqb (fst e) filepath) (fs w)
                   = Some (match find (fun e => path_eqb (fst e) filepath) (fs w) with
                           | Some e => fst e
                           | None => []
                           end, RegularFile)).
  { unfold is_file in Hfile. injection Hfile as Hfile.
    destruct (find _ (fs w)) as [[q [|]]|]; [reflexivity | discriminate..]. }
  assert (Hocc : occupied (fs w) filepath = true).
  { unfold occupied. apply existsb_exists.
    destruct (find_some _ _ Hfound) as [Hin Heq]. eexists. split; [exact Hin | exact Heq]. }
  assert (Hne : filepath <> p) by (intros ->; congruence).
  assert (Hfs : process_entry directory args filepath w
                = (Ok tt,
                   mkWorld
                     (map (fun e : Path * entry_kind =>
                             if path_eqb (fst e) filepath then (p, snd e) else e) (fs w))
                     (stdin w)
                     (stdout (snd (after_plan args filepath p w)))
                     (stderr w))).
  { unfold process_entry, bind at 1. rewrite Hfile. cbn [negb].
    unfold bind at 1, lift. rewrite Hparse. unfold bind at 1. rewrite Hplan.
    fold (after_plan args filepath p).
    unfold_after_plan. rewrite Hr, Hy.
    destruct (verbose args); cbn [fst snd fs stdin stdout stderr];
      rewrite (moved_filter filepath p (fs w) Hfree); reflexivity. }
  rewrite Hfs. cbn [fst snd fs]. repeat split.
  - now apply moved_source_free.
  - unfold is_file. cbn [fst fs].
    rewrite (moved_target_found filepath p (fs w) Hfree), Hfound.
    cbn [option_map fst snd].
    match goal with
    | |- context [path_eqb ?a filepath] => destruct (path_eqb a filepath)
    end; reflexivity.
  - intros q Hq1 Hq2. now apply moved_others.
Qed.

Lemma confirmed_entry_is_moved_witness :
  fst (process_entry photos rename_all early_file (quiet busy)) = Ok tt
  /\ occupied (fs (snd (process_entry photos rename_all early_file (quiet busy))))
       early_file = false
  /\ fst (is_file (photos ++ [str "2020-01-01_00-00-00_1.png"])
            (snd (process_entry photos rename_all early_file (quiet busy)))) = Ok true
  /\ forall q, q <> early_file -> q <> photos ++ [str "2020-01-01_00-00-00_1.png"] ->
               occupied (fs (snd (process_entry photos rename_all early_file (quiet busy))))
                 q
               = occupied (fs (quiet busy)) q.
Proof.
  apply (confirmed_entry_is_moved photos rename_all early_file (quiet busy)
           (mkFileMetaData 2020 1 1 0 0 0 (str "png")));
    vm_compute; reflexivity.
Defined.

(** ** Exit status and diagnostics *)







(** ** The entry point *)

(** X18: started without [--exiftool] and without [--rename], [main]
    changes neither the filesystem nor the unread input, whatever the
    directory argument is. *)
Theorem main_default_is_a_dry_run
  (which : list ascii -> world -> option (list ascii))
  (call : list (list ascii) -> world -> Z * world)
  (directory_arg : list ascii) (args : Args) (w : world) :
  rename args = false ->
  fs (snd (main which call directory_arg false args w)) = fs w
  /\ stdin (snd (main which call directory_arg false args w)) = stdin w.
Proof.
  intros Hdry. unfold main, is_dir.
  destruct (find _ (fs w)) as [[q [|]]|]; cbn [snd print_err fs stdin]; auto.
  apply (rename_files_invariant (fun a b => fs b = fs a /\ stdin b = stdin a)).
  - auto.
  - intros a b c [H1 H2] [H3 H4]. split; congruence.
  - intros w0 line. auto.
  - intros filepath p w0 _. unfold_after_plan. rewrite Hdry.
    destruct (verbose args); simpl; auto.
Qed.

Lemma main_default_is_a_dry_run_witness :
  fs (snd (main (fun _ _ => None) (fun _ w => (0%Z, w)) (str "photos") false
             (mkArgs true false false)
             (quiet ((photos, Directory) :: busy))))
  = (photos, Directory) :: busy
  /\ stdin (snd (main (fun _ _ => None) (fun _ w => (0%Z, w)) (str "photos") false
                  (mkArgs true false false)
                  (quiet ((photos, Directory) :: busy))))
     = [].
Proof.
  apply (main_default_is_a_dry_run (fun _ _ => None) (fun _ w => (0%Z, w))
           (str "photos") (mkArgs true false false)
           (quiet ((photos, Directory) :: busy))).
  reflexivity.
Defined.
